(** * The question generator of [app.py]: admission gate, prompt building,
      failure classification and the saved-context store.

    The Streamlit script is embedded shallowly.  [st.session_state] becomes
    the record [session], threaded explicitly through every handler; what
    the script shows with [st.warning] / [st.error] is returned as a list of
    [ui_event]s; every reading of the clock ([time.time()],
    [datetime.now()]) and every answer of an outside library (the parsers,
    the model client) is an explicit argument of the function that asks for
    it.

    Python strings are sequences of code points: [str] is [list N].
    [time.time()] yields a float; timestamps are taken here as exact
    rationals ([Q]), so the rounding of float subtraction and addition is
    not part of the model. *)

From Stdlib Require Import ZArith QArith Qround Lqa Lia List Ascii String.
From Stdlib Require Import Numbers.DecimalString.
From stdpp Require Import gmap list fin_maps.

(** ** Strings *)

Abbreviation str := (list N).

(** A literal of the script, as code points. *)
Definition lit (s : string) : str :=
  List.map N_of_ascii (list_ascii_of_string s).

Arguments lit : simpl never.

Definition nl : str := [10%N].

(** [str(n)] / [f"{n}"] for a Python [int]. *)
Definition str_of_int (z : Z) : str :=
  lit (NilZero.string_of_int (Z.to_int z)).

Arguments str_of_int : simpl never.

(** [len(s)] *)
Definition len (s : str) : Z := Z.of_nat (length s).

(** [s[:n]]: the first [n] items, or all but the last [-n] when [n] is
    negative. *)
Definition slice_to (n : Z) (s : str) : str :=
  if (0 <=? n)%Z then firstn (Z.to_nat n) s
  else firstn (length s - Z.to_nat (- n)) s.

(** [sep.join(parts)] *)
Fixpoint join (sep : str) (parts : list str) : str :=
  match parts with
  | [] => []
  | [p] => p
  | p :: rest => p ++ sep ++ join sep rest
  end.

(** [str.isspace] on one code point: the white space of CPython's
    [_PyUnicode_IsWhitespace], which is what [str.strip()] removes. *)
Definition is_space (c : N) : bool :=
  ((9 <=? c) && (c <=? 13) || (28 <=? c) && (c <=? 32)
   || (c =? 133) || (c =? 160) || (c =? 5760)
   || (8192 <=? c) && (c <=? 8202)
   || (c =? 8232) || (c =? 8233) || (c =? 8239) || (c =? 8287)
   || (c =? 12288))%N.

Fixpoint lstrip (s : str) : str :=
  match s with
  | [] => []
  | c :: rest => if is_space c then lstrip rest else s
  end.

Definition rstrip (s : str) : str := rev (lstrip (rev s)).

(** [s.strip()] *)
Definition strip (s : str) : str := lstrip (rstrip s).

(** [s.lower()] on the ASCII letters.  Outside ASCII only U+212A (to [k])
    and U+0130 (to [i] and U+0307) lower to something holding an ASCII
    letter, and neither letter occurs in the words this script looks for
    in a lowered string ([quota], [exceeded], the file extensions), so
    leaving the other code points alone gives the same answers. *)
Definition lower_char (c : N) : N :=
  if ((65 <=? c) && (c <=? 90))%N then (c + 32)%N else c.

Definition lower (s : str) : str := List.map lower_char s.

Fixpoint starts_with (p s : str) : bool :=
  match p, s with
  | [], _ => true
  | _ :: _, [] => false
  | a :: p', b :: s' => (a =? b)%N && starts_with p' s'
  end.

(** [sub in s] *)
Fixpoint contains (sub s : str) : bool :=
  starts_with sub s ||
  match s with
  | [] => false
  | _ :: s' => contains sub s'
  end.

(** Python truthiness of a string and of an optional string. *)
Definition truthy_str (s : str) : bool :=
  match s with [] => false | _ :: _ => true end.

Definition truthy_opt_str (o : option str) : bool :=
  match o with None => false | Some s => truthy_str s end.

(** ** Numbers *)

(** [int(x)] for a float [x]: truncation toward zero. *)
Definition py_int (x : Q) : Z := Z.quot (Qnum x) (Zpos (Qden x)).

Definition Qlt_bool (a b : Q) : bool := negb (Qle_bool b a).

(** Truthiness of [None] or a float: [None] and [0.0] are false. *)
Definition truthy_opt_time (o : option Q) : bool :=
  match o with
  | None => false
  | Some t => negb (Qeq_bool t 0)
  end.

(** ** Session state *)

(** One entry of [conversation_history]. *)
Record saved_context := SavedContext {
  sc_file : option str;
  sc_content : str;
  sc_timestamp : str;
  sc_size : str
}.

(** [st.session_state], with the initial values of the script. *)
Record session := Session {
  conversation_history : gmap str saved_context;
  current_context : str;
  current_file_name : option str;
  api_key : option str;
  generation_count : Z;
  last_request_time : Q;
  quota_reset_time : option Q
}.

Definition initial_session : session :=
  {| conversation_history := ∅;
     current_context := [];
     current_file_name := None;
     api_key := None;
     generation_count := 0;
     last_request_time := 0;
     quota_reset_time := None |}.

Definition set_quota_reset_time (o : option Q) (s : session) : session :=
  {| conversation_history := conversation_history s;
     current_context := current_context s;
     current_file_name := current_file_name s;
     api_key := api_key s;
     generation_count := generation_count s;
     last_request_time := last_request_time s;
     quota_reset_time := o |}.

Definition set_last_request_time (t : Q) (s : session) : session :=
  {| conversation_history := conversation_history s;
     current_context := current_context s;
     current_file_name := current_file_name s;
     api_key := api_key s;
     generation_count := generation_count s;
     last_request_time := t;
     quota_reset_time := quota_reset_time s |}.

Definition set_history (h : gmap str saved_context) (s : session) : session :=
  {| conversation_history := h;
     current_context := current_context s;
     current_file_name := current_file_name s;
     api_key := api_key s;
     generation_count := generation_count s;
     last_request_time := last_request_time s;
     quota_reset_time := quota_reset_time s |}.

Definition set_current (text : str) (file : option str) (s : session) : session :=
  {| conversation_history := conversation_history s;
     current_context := text;
     current_file_name := file;
     api_key := api_key s;
     generation_count := generation_count s;
     last_request_time := last_request_time s;
     quota_reset_time := quota_reset_time s |}.

Definition set_current_context (text : str) (s : session) : session :=
  set_current text (current_file_name s) s.

Definition set_generation_count (n : Z) (s : session) : session :=
  {| conversation_history := conversation_history s;
     current_context := current_context s;
     current_file_name := current_file_name s;
     api_key := api_key s;
     generation_count := n;
     last_request_time := last_request_time s;
     quota_reset_time := quota_reset_time s |}.

(** What the script puts on the page with [st.warning] and [st.error]. *)
Inductive ui_event :=
| UiWarning (msg : str)
| UiError (msg : str)
| UiSuccess (msg : str).

(** ** Rate limiting *)

Module Gate.

Local Open Scope Q_scope.

(** The message of the lockout branch. *)
Definition locked_message (remaining : Q) : str :=
  lit "Rate limited. Wait " ++ str_of_int (py_int remaining) ++ lit "s.".

(** The message of the spacing branch. *)
Definition wait_message (wait_time : Q) : str :=
  lit "Wait " ++ str_of_int (py_int wait_time) ++ lit "s before next request.".

(** The third test of [check_quota_limits] and its two exits. *)
Definition spacing_check (current_time : Q) (s : session)
  : (bool * option str) * session :=
  if Qlt_bool (current_time - last_request_time s) 3 then
    let wait_time := 3 - (current_time - last_request_time s) in
    ((false, Some (wait_message wait_time)), s)
  else ((true, None), s).

(** [check_quota_limits()], with [current_time] the value [time.time()]
    returns at its first line.  The result is the returned pair and the
    session state the call leaves behind.  In [a and b] Python evaluates
    [b] only when [a] is true, so the comparisons with [quota_reset_time]
    are only made on a float. *)
Definition check_quota_limits (current_time : Q) (s : session)
  : (bool * option str) * session :=
  match quota_reset_time s with
  | Some reset =>
      if truthy_opt_time (Some reset) && Qlt_bool current_time reset then
        let remaining := reset - current_time in
        ((false, Some (locked_message remaining)), s)
      else if truthy_opt_time (Some reset) && Qle_bool reset current_time then
        spacing_check current_time (set_quota_reset_time None s)
      else spacing_check current_time s
  | None => spacing_check current_time s
  end.

(** The lockout is in force at [now]: the first test of the function. *)
Definition lockout_active (now : Q) (s : session) : bool :=
  match quota_reset_time s with
  | Some reset => truthy_opt_time (Some reset) && Qlt_bool now reset
  | None => false
  end.

(** The assignment of the quota branch of the handler in
    [generate_questions]: [quota_reset_time = time.time() + 120]. *)
Definition record_lockout (now : Q) (s : session) : session :=
  set_quota_reset_time (Some (now + 120)) s.

End Gate.

(** ** Question generation *)

(** [f"{x}"] for a value that is a string or [None]. *)
Definition fmt_opt (o : option str) : str :=
  match o with
  | Some s => s
  | None => lit "None"
  end.

Module Generator.

Local Open Scope Q_scope.

(** What [model.generate_content(prompt)] followed by the reading of
    [response.text] comes to. *)
Inductive call_outcome :=
| Responded (text : str)     (* a true response and its [text] *)
| NoResponse                 (* a false response *)
| Raised (msg : str).        (* an exception [e], with [str(e) = msg] *)

(** The [google.generativeai] client, as far as the script uses it.  An
    optional message stands for an exception raised with that message; a
    model is known by its name. *)
Record client := Client {
  configure : str -> option str;
  new_model : str -> option str;
  generate_content : str -> str -> call_outcome
}.

Definition model_options : list str :=
  [lit "gemini-2.0-flash"; lit "gemini-1.5-flash"; lit "gemini-1.5-pro"].

(** The loop of [get_generative_model]: the first name whose model is
    constructed without an exception. *)
Fixpoint first_model (c : client) (names : list str) : option str :=
  match names with
  | [] => None
  | model_name :: rest =>
      match new_model c model_name with
      | None => Some model_name
      | Some _ => first_model c rest
      end
  end.

(** [get_generative_model(api_key)] (the cache of [st.cache_resource]
    left out). *)
Definition get_generative_model (c : client) (key : str)
  : option str * list ui_event :=
  let failed msg := (None, [UiError (lit "Model initialization error: " ++ msg)]) in
  match configure c key with
  | Some msg => failed msg
  | None =>
      match first_model c model_options with
      | Some model => (Some model, [])
      | None => failed (lit "No compatible Gemini model found")
      end
  end.

Definition max_chars : Z := 7000.

Definition truncation_marker : str :=
  nl ++ lit "[Content truncated for optimization]".

(** [truncated_content], from [content[:max_chars]] and the test on
    [len(content)]. *)
Definition truncate_content (content : str) : str :=
  let truncated_content := slice_to max_chars content in
  if (max_chars <? len content)%Z
  then truncated_content ++ truncation_marker
  else truncated_content.

(** The part of the prompt before the content. *)
Definition prompt_head (mcq_count short_count : Z) (difficulty_level topic_focus : str) : str :=
  lit "Generate " ++ str_of_int mcq_count ++ lit " MCQs and "
    ++ str_of_int short_count ++ lit " short questions." ++ nl
  ++ lit "Difficulty: " ++ difficulty_level ++ nl
  ++ lit "Topic: " ++ topic_focus ++ nl
  ++ nl
  ++ lit "Content:" ++ nl.

(** The part of the prompt after the content. *)
Definition prompt_tail (mcq_count short_count : Z) : str :=
  nl
  ++ nl
  ++ lit "=== MULTIPLE CHOICE (" ++ str_of_int mcq_count ++ lit ") ===" ++ nl
  ++ lit "Q1. [Question]" ++ nl
  ++ lit "A) [Option A]" ++ nl
  ++ lit "B) [Option B]" ++ nl
  ++ lit "C) [Option C]" ++ nl
  ++ lit "D) [Option D]" ++ nl
  ++ lit "Answer: [A/B/C/D]" ++ nl
  ++ nl
  ++ lit "=== SHORT ANSWER (" ++ str_of_int short_count ++ lit ") ===" ++ nl
  ++ lit "Q1. [Question]" ++ nl
  ++ lit "Answer: [2-3 lines]".

(** The f-string [prompt]. *)
Definition build_prompt (content : str) (mcq_count short_count : Z)
    (difficulty_level topic_focus : str) : str :=
  prompt_head mcq_count short_count difficulty_level topic_focus
  ++ truncate_content content
  ++ prompt_tail mcq_count short_count.

(** The test of the exception handler. *)
Definition is_quota_error (error_str : str) : bool :=
  contains (lit "429") error_str
  || contains (lit "quota") (lower error_str)
  || contains (lit "exceeded") (lower error_str).

(** The text shown for a quota error. *)
Definition quota_message : str :=
  [10060%N] ++ lit " **API Quota Exceeded**" ++ nl
  ++ lit "            " ++ nl
  ++ lit "The free tier rate limit has been reached temporarily." ++ nl
  ++ nl
  ++ lit "**Solutions:**" ++ nl
  ++ lit "1. " ++ [9203%N] ++ lit " **Wait 2 minutes** - Quota resets in 120 seconds" ++ nl
  ++ lit "2. " ++ [128201%N] ++ lit " **Reduce questions** - Try fewer MCQs/short questions" ++ nl
  ++ lit "3. " ++ [128179%N] ++ lit " **Upgrade** - https://ai.google.dev/pricing" ++ nl
  ++ lit "4. " ++ [128197%N] ++ lit " **Tomorrow** - Free quota resets daily" ++ nl
  ++ nl
  ++ lit "**Why this happens:**" ++ nl
  ++ lit "Free tier has daily & hourly request limits. You've made many requests recently.".

(** The text shown for any other error. *)
Definition failure_message (error_str : str) : str :=
  [10060%N] ++ lit " Error generating questions: " ++ slice_to 200 error_str.

(** The three readings of [time.time()] one call of [generate_questions]
    can make: in [check_quota_limits], before the external call, and in
    the exception handler. *)
Record clock := Clock {
  at_check : Q;
  at_dispatch : Q;
  at_error : Q
}.

(** [generate_questions(api_key, content, mcq_count, short_count,
    difficulty_level, topic_focus)]: the returned value, the session state
    left behind and what was shown. *)
Definition generate_questions (c : client) (k : clock)
    (key content : str) (mcq_count short_count : Z)
    (difficulty_level topic_focus : str) (s : session)
  : option str * session * list ui_event :=
  let '((can_proceed, error_msg), s1) := Gate.check_quota_limits (at_check k) s in
  if negb can_proceed then
    (None, s1, [UiWarning ([9203%N] ++ lit " " ++ fmt_opt error_msg)])
  else
    match get_generative_model c key with
    | (None, shown) => (None, s1, shown)
    | (Some model, shown) =>
        let prompt :=
          build_prompt content mcq_count short_count difficulty_level topic_focus in
        let s2 := set_last_request_time (at_dispatch k) s1 in
        match generate_content c model prompt with
        | Responded text => (Some text, s2, shown)
        | NoResponse => (None, s2, shown)
        | Raised error_str =>
            if is_quota_error error_str then
              (None,
               set_quota_reset_time (Some (at_error k + 120)) s2,
               shown ++ [UiError quota_message])
            else
              (None, s2, shown ++ [UiError (failure_message error_str)])
        end
    end.

(** The handler of the "Generate Questions" button.  The button is only
    drawn when an API key is set and the current context is not blank. *)
Definition on_generate (c : client) (k : clock) (mcq_count short_count : Z)
    (difficulty topic_focus : str) (s : session) : session * list ui_event :=
  match api_key s with
  | Some key =>
      if truthy_str key && truthy_str (strip (current_context s)) then
        let '(output, s1, shown) :=
          generate_questions c k key (current_context s) mcq_count short_count
            difficulty
            (if truthy_str topic_focus then topic_focus else lit "All topics") s in
        if truthy_opt_str output
        then (set_generation_count (generation_count s1 + 1) s1, shown)
        else (s1, shown)
      else (s, [])
  | None => (s, [])
  end.

End Generator.

(** ** Saved contexts *)

Module Store.

(** What [datetime.now()] returns. *)
Record datetime := DateTime {
  year : N;
  month : N;
  day : N;
  hour : N;
  minute : N;
  second : N
}.

(** The ranges of the fields of a [datetime] for which the formats below
    print what [strftime] prints (a year of four digits). *)
Definition valid_datetime (d : datetime) : Prop :=
  (1000 <= year d <= 9999 /\ 1 <= month d <= 12 /\ 1 <= day d <= 31
   /\ hour d < 24 /\ minute d < 60 /\ second d < 60)%N.

Definition digit (n : N) : N := (48 + n)%N.

(** A field printed on two digits ([%H], [%M], [%S], [%m], [%d]). *)
Definition pad2 (n : N) : str := [digit (n / 10); digit (n mod 10)]%N.

(** The year printed on four digits ([%Y]). *)
Definition pad4 (n : N) : str :=
  [digit (n / 1000); digit ((n / 100) mod 10);
   digit ((n / 10) mod 10); digit (n mod 10)]%N.

(** [d.strftime('%H:%M:%S')] *)
Definition strftime_HMS (d : datetime) : str :=
  pad2 (hour d) ++ lit ":" ++ pad2 (minute d) ++ lit ":" ++ pad2 (second d).

(** [d.strftime("%Y-%m-%d %H:%M:%S")] *)
Definition strftime_full (d : datetime) : str :=
  pad4 (year d) ++ lit "-" ++ pad2 (month d) ++ lit "-" ++ pad2 (day d)
  ++ lit " " ++ strftime_HMS d.

(** [f"{n/1024:.1f}"]: [n/1024] is exact in binary floating point, so the
    format rounds the exact quotient to one decimal, ties to even. *)
Definition kb_one_decimal (n : Z) : str :=
  let q := (n * 10 / 1024)%Z in
  let r := (n * 10 mod 1024)%Z in
  let tenths :=
    if (r <? 512)%Z then q
    else if (512 <? r)%Z then (q + 1)%Z
    else if Z.even q then q else (q + 1)%Z in
  str_of_int (tenths / 10) ++ lit "." ++ str_of_int (tenths mod 10).

(** The key under which "Save Context" files the current context. *)
Definition context_key (file : option str) (now : datetime) : str :=
  fmt_opt file ++ lit "_" ++ strftime_HMS now.

(** The entry "Save Context" builds. *)
Definition make_entry (s : session) (now : datetime) : saved_context :=
  {| sc_file := current_file_name s;
     sc_content := current_context s;
     sc_timestamp := strftime_full now;
     sc_size := kb_one_decimal (len (current_context s)) ++ lit " KB" |}.

(** The handler of "Save Context".  [datetime.now()] is read twice: for
    the key and for the entry's time stamp. *)
Definition on_save (now_key now_stamp : datetime) (s : session)
  : session * list ui_event :=
  if truthy_str (strip (current_context s)) then
    let key := context_key (current_file_name s) now_key in
    (set_history (<[key := make_entry s now_stamp]> (conversation_history s)) s,
     [UiSuccess ([9989%N] ++ lit " Context saved!")])
  else
    (s, [UiWarning ([9888%N; 65039%N] ++ lit " No content to save")]).

(** The handler of "Clear All". *)
Definition on_clear_all (s : session) : session * list ui_event :=
  (set_current_context [] (set_history ∅ s),
   [UiSuccess ([9989%N] ++ lit " All contexts cleared!")]).

(** The widget keys of the two buttons drawn for a saved context. *)
Definition load_button (key : str) : str := lit "load_" ++ key.
Definition del_button (key : str) : str := lit "del_" ++ key.

(** The loop over [conversation_history.items()] that draws the saved
    contexts.  [clicked] is the key of the button that was pressed, for
    which [st.button] answers [True]; [st.rerun()] ends the run of the
    script, and so the loop, at once.  The keys of a dictionary are
    distinct, so at most one item has a button that is [clicked]. *)
Fixpoint contexts_loop (clicked : str) (items : list (str * saved_context))
    (s : session) : session * list ui_event :=
  match items with
  | [] => (s, [])
  | (key, data) :: rest =>
      if decide (clicked = load_button key) then
        (set_current (sc_content data) (sc_file data) s,
         [UiSuccess ([9989%N] ++ lit " Context loaded!")])
      else if decide (clicked = del_button key) then
        (set_history (delete key (conversation_history s)) s,
         [UiSuccess ([9989%N] ++ lit " Context deleted!")])
      else contexts_loop clicked rest s
  end.

(** The "Saved Contexts" part of the sidebar on a run where the button
    [clicked] was pressed.  The map lists its items in its own order, not
    in the order of insertion of a Python dictionary; what the loop does
    on a press does not depend on the order (lemmas
    [contexts_loop_delete_present], [contexts_loop_load]). *)
Definition saved_contexts_panel (clicked : str) (s : session)
  : session * list ui_event :=
  contexts_loop clicked (map_to_list (conversation_history s)) s.

(** Pressing "Load" and "Delete" of the saved context [key]. *)
Definition on_load (key : str) (s : session) : session * list ui_event :=
  saved_contexts_panel (load_button key) s.

Definition on_delete (key : str) (s : session) : session * list ui_event :=
  saved_contexts_panel (del_button key) s.

End Store.

(** ** Text extraction *)

Module Extractor.

(** The answer of an outside parser on the uploaded bytes: an exception
    with its message, or what it parsed. *)
Inductive parsed (A : Type) :=
| Failed (msg : str)
| Parsed (a : A).
Arguments Failed {A} msg.
Arguments Parsed {A} a.

(** A [python-docx] document: its paragraphs' texts, and for each table
    its rows of cell texts. *)
Record docx_document := DocxDocument {
  paragraphs : list str;
  tables : list (list (list str))
}.

(** An uploaded file: its name, and what each library makes of its bytes
    inside the reader's [try] block.
    - [as_pdf]: for each page of [PdfReader(f).pages], [extract_text()],
      which may be [None];
    - [as_docx]: [Document(f)];
    - [as_txt]: [f.getvalue().decode("utf-8")];
    - [as_csv]: [pd.read_csv(f).to_string()];
    - [as_excel]: for each name of [pd.ExcelFile(f).sheet_names], the
      [to_string()] of that sheet. *)
Record uploaded_file := UploadedFile {
  name : str;
  as_pdf : parsed (list (option str));
  as_docx : parsed docx_document;
  as_txt : parsed str;
  as_csv : parsed str;
  as_excel : parsed (list (str * str))
}.

Definition reader_result : Type := option str * list ui_event.

(** The [except] branch shared by the readers. *)
Definition read_error (kind : string) (msg : str) : reader_result :=
  (None, [UiError (lit "Error reading " ++ lit kind ++ lit ": " ++ msg)]).

Definition pdf_text (pages : list (option str)) : str :=
  join nl (List.map (fun page => match page with
                                 | Some t => if truthy_str t then t else []
                                 | None => []
                                 end) pages).

Definition read_pdf (f : uploaded_file) : reader_result :=
  match as_pdf f with
  | Parsed pages => (Some (strip (pdf_text pages)), [])
  | Failed msg => read_error "PDF" msg
  end.

(** The two nested loops over the tables of a document. *)
Definition rows_text (text : str) (rows : list (list str)) : str :=
  fold_left (fun text cells => text ++ nl ++ join (lit " | ") cells) rows text.

Definition docx_text (doc : docx_document) : str :=
  fold_left rows_text (tables doc) (join nl (paragraphs doc)).

Definition read_docx (f : uploaded_file) : reader_result :=
  match as_docx f with
  | Parsed doc => (Some (strip (docx_text doc)), [])
  | Failed msg => read_error "DOCX" msg
  end.

Definition read_txt (f : uploaded_file) : reader_result :=
  match as_txt f with
  | Parsed text => (Some (strip text), [])
  | Failed msg => read_error "TXT" msg
  end.

Definition read_csv (f : uploaded_file) : reader_result :=
  match as_csv f with
  | Parsed table => (Some table, [])
  | Failed msg => read_error "CSV" msg
  end.

Definition excel_text (sheets : list (str * str)) : str :=
  fold_left (fun text sheet =>
               text ++ (nl ++ lit "--- Sheet: " ++ fst sheet ++ lit " ---" ++ nl)
                    ++ snd sheet ++ nl)
            sheets [].

Definition read_excel (f : uploaded_file) : reader_result :=
  match as_excel f with
  | Parsed sheets => (Some (strip (excel_text sheets)), [])
  | Failed msg => read_error "EXCEL" msg
  end.

(** [s.split(sep)] for a separator of one code point. *)
Fixpoint split_on (sep : N) (s : str) : list str :=
  match s with
  | [] => [[]]
  | c :: rest =>
      if (c =? sep)%N then [] :: split_on sep rest
      else match split_on sep rest with
           | part :: parts => (c :: part) :: parts
           | [] => [[c]]
           end
  end.

(** [uploaded_file.name.split(".")[-1].lower()] *)
Definition file_type (f : uploaded_file) : str :=
  lower (List.last (split_on 46 (name f)) []).

(** The dictionary [processors]. *)
Definition processors : list (str * (uploaded_file -> reader_result)) :=
  [(lit "pdf", read_pdf); (lit "docx", read_docx); (lit "txt", read_txt);
   (lit "csv", read_csv); (lit "xls", read_excel); (lit "xlsx", read_excel)].

(** [processors.get(file_type)] *)
Fixpoint processors_get (table : list (str * (uploaded_file -> reader_result)))
    (key : str) : option (uploaded_file -> reader_result) :=
  match table with
  | [] => None
  | (k, processor) :: rest =>
      if decide (k = key) then Some processor else processors_get rest key
  end.

(** [extract_text(uploaded_file)] (the caches of [st.cache_data] left
    out). *)
Definition extract_text (uploaded : option uploaded_file) : reader_result :=
  match uploaded with
  | None => (None, [])
  | Some f =>
      match processors_get processors (file_type f) with
      | Some processor => processor f
      | None => (None, [UiError (lit "Unsupported file type: " ++ file_type f)])
      end
  end.

(** The "Upload Document" part of the page: the extracted text becomes the
    current context when it is true, that is neither [None] nor empty. *)
Definition on_upload (uploaded : option uploaded_file) (s : session)
  : session * list ui_event :=
  match uploaded with
  | Some f =>
      let '(text_content, shown) := extract_text (Some f) in
      match text_content with
      | Some text =>
          if truthy_str text
          then (set_current text (Some (name f)) s, shown)
          else (s, shown)
      | None => (s, shown)
      end
  | None => (s, [])
  end.

End Extractor.

(** ** The run of the script *)

Definition set_api_key (o : option str) (s : session) : session :=
  {| conversation_history := conversation_history s;
     current_context := current_context s;
     current_file_name := current_file_name s;
     api_key := o;
     generation_count := generation_count s;
     last_request_time := last_request_time s;
     quota_reset_time := quota_reset_time s |}.

Module Script.

Import Generator Store Extractor.

(** The values of the input widgets on one run of the script. *)
Record widgets := Widgets {
  api_key_input : str;
  mcq_slider : Z;
  short_slider : Z;
  difficulty_box : str;
  topic_input : str;
  uploader : option uploaded_file
}.

(** The button whose press started the run, if any.  [PressSaved] carries
    the widget key of a "Load" or "Delete" button.  "Copy All" and
    "Download" only show a note and are left out. *)
Inductive press :=
| NoPress
| PressSave
| PressClearAll
| PressSaved (clicked : str)
| PressGenerate.

(** What a run reads from outside: the model client and the clocks. *)
Record world := World {
  the_client : client;
  the_clock : clock;
  save_key_time : datetime;
  save_stamp_time : datetime
}.

(** The sidebar.  The last component tells that [st.rerun()] was called:
    of the saved contexts' loop exactly the two branches that call it show
    a message. *)
Definition sidebar (w : widgets) (p : press) (o : world) (s : session)
  : session * list ui_event * bool :=
  let s1 :=
    if truthy_str (api_key_input w)
    then set_api_key (Some (api_key_input w)) s else s in
  match p with
  | PressSave =>
      let '(s2, shown) := on_save (save_key_time o) (save_stamp_time o) s1 in
      (s2, shown, false)
  | PressClearAll =>
      let '(s2, shown) := on_clear_all s1 in (s2, shown, false)
  | PressSaved clicked =>
      let '(s2, shown) := saved_contexts_panel clicked s1 in
      (s2, shown, match shown with [] => false | _ :: _ => true end)
  | NoPress | PressGenerate => (s1, [], false)
  end.

(** The main part of the page, below the sidebar.  Only what is shown
    with [st.warning], [st.error] and [st.success] is recorded: the notice
    that asks for an API key ([st.markdown], [st.info]) and the boxes drawn
    with [st.markdown] are not among the events. *)
Definition main_content (w : widgets) (p : press) (o : world) (s : session)
  : session * list ui_event :=
  if negb (truthy_opt_str (api_key s)) then (s, [])
  else
    let '(s1, shown1) := on_upload (uploader w) s in
    if truthy_str (strip (current_context s1)) then
      match p with
      | PressGenerate =>
          let '(s2, shown2) :=
            on_generate (the_client o) (the_clock o) (mcq_slider w)
              (short_slider w) (difficulty_box w) (topic_input w) s1 in
          (s2, shown1 ++ shown2)
      | _ => (s1, shown1)
      end
    else (s1, shown1).

(** One interaction: the run the press starts and, when that run calls
    [st.rerun()], the run that follows it with no button pressed. *)
Definition script_run (w : widgets) (p : press) (o : world) (s : session)
  : session * list ui_event :=
  let '(s1, shown1, rerun) := sidebar w p o s in
  if rerun then
    let '(s2, shown2, _) := sidebar w NoPress o s1 in
    let '(s3, shown3) := main_content w NoPress o s2 in
    (s3, shown2 ++ shown3)
  else
    let '(s2, shown2) := main_content w p o s1 in
    (s2, shown1 ++ shown2).

End Script.

(** ** The words of the specification

    The predicates below say in logic what the specification says in
    words; the properties compare the functions above with them. *)

Module Spec.

(** [sub] occurs in [s]. *)
Definition occurs_in (sub s : str) : Prop :=
  exists pre post, s = pre ++ sub ++ post.

(** [word], given in lower case, occurs in [s] in some mix of cases. *)
Definition occurs_ignoring_case (word s : str) : Prop :=
  exists pre mid post, s = pre ++ mid ++ post /\ lower mid = word.

(** The message of an error that tells of an exhausted quota or a rate
    limit. *)
Definition quota_like (msg : str) : Prop :=
  occurs_in (lit "429") msg
  \/ occurs_ignoring_case (lit "quota") msg
  \/ occurs_ignoring_case (lit "exceeded") msg.

(** [s] holds nothing but white space. *)
Definition blank (s : str) : Prop := Forall (fun c => is_space c = true) s.

(** [s] neither starts nor ends with white space. *)
Definition stripped (s : str) : Prop :=
  (forall c rest, s = c :: rest -> is_space c = false)
  /\ (forall c front, s = front ++ [c] -> is_space c = false).

(** [s'] differs from [s] at most in the two timers of the gate. *)
Definition same_documents (s s' : session) : Prop :=
  conversation_history s' = conversation_history s
  /\ current_context s' = current_context s
  /\ current_file_name s' = current_file_name s
  /\ api_key s' = api_key s
  /\ generation_count s' = generation_count s.

(** [s'] has the timers of [s]. *)
Definition same_timers (s s' : session) : Prop :=
  last_request_time s' = last_request_time s
  /\ quota_reset_time s' = quota_reset_time s.

End Spec.

(** ** Sample inputs

    Concrete clients, clocks, dates and files on which the properties
    below are run. *)

Module Sample.

Import Generator Store Extractor.

(** A client whose model answers every prompt with the prompt itself. *)
Definition echo_client : client :=
  {| configure := fun _ => None;
     new_model := fun _ => None;
     generate_content := fun _ prompt => Responded prompt |}.

(** A client whose every call raises an error with the message [msg]. *)
Definition failing_client (msg : str) : client :=
  {| configure := fun _ => None;
     new_model := fun _ => None;
     generate_content := fun _ _ => Raised msg |}.

Definition clock_at (t : Q) : clock :=
  {| at_check := t; at_dispatch := t + 1; at_error := t + 2 |}%Q.

(** A text of [n] letters [x]. *)
Definition text_of_length (n : Z) : str := repeat 120%N (Z.to_nat n).

Definition noon (d : N) : datetime :=
  {| year := 2024; month := 5; day := d; hour := 12; minute := 0; second := 0 |}.

Definition one_past_noon (d : N) : datetime :=
  {| year := 2024; month := 5; day := d; hour := 12; minute := 0; second := 1 |}.

(** A session holding the text [text] of the file [notes.txt]. *)
Definition with_notes (text : str) (s : session) : session :=
  set_current text (Some (lit "notes.txt")) s.

(** An upload on which every parser fails, but for the fields given. *)
Definition upload (file_name : string) (txt csv : parsed str) : uploaded_file :=
  {| name := lit file_name;
     as_pdf := Failed (lit "not a PDF");
     as_docx := Failed (lit "not a DOCX");
     as_txt := txt;
     as_csv := csv;
     as_excel := Failed (lit "not a workbook") |}.

(** A client on which no model can be constructed. *)
Definition modelless_client : client :=
  {| configure := fun _ => None;
     new_model := fun _ => Some (lit "404 model not found");
     generate_content := fun _ prompt => Responded prompt |}.

(** A client that only offers the last model of the list. *)
Definition pro_only_client : client :=
  {| configure := fun _ => None;
     new_model := fun model_name =>
       if decide (model_name = lit "gemini-1.5-pro") then None
       else Some (lit "404 model not found");
     generate_content := fun model_name _ => Responded model_name |}.

(** A session with an API key and the text [text] of [notes.txt]. *)
Definition keyed_session (text : str) : session :=
  with_notes text (set_api_key (Some (lit "key")) initial_session).

Definition sample_world (c : client) : Script.world :=
  {| Script.the_client := c;
     Script.the_clock := clock_at 1000;
     Script.save_key_time := noon 1;
     Script.save_stamp_time := noon 1 |}.

(** The widgets with the key [key] typed in and [file] in the uploader. *)
Definition keyed_widgets (file : option uploaded_file) : Script.widgets :=
  {| Script.api_key_input := lit "key";
     Script.mcq_slider := 10;
     Script.short_slider := 5;
     Script.difficulty_box := lit "Easy";
     Script.topic_input := [];
     Script.uploader := file |}.


Definition memo_file : uploaded_file :=
  upload "memo.txt" (Parsed (lit "memo")) (Failed (lit "no table")).

(** The widgets with [file] in the uploader and no key typed in. *)
Definition sample_widgets (file : option uploaded_file) : Script.widgets :=
  {| Script.api_key_input := [];
     Script.mcq_slider := 10;
     Script.short_slider := 5;
     Script.difficulty_box := lit "Easy";
     Script.topic_input := [];
     Script.uploader := file |}.

End Sample.

(** * Properties *)

(** ** Numbers and comparisons *)

Section Numbers.

Local Open Scope Q_scope.

Lemma Qlt_bool_iff (a b : Q) : Qlt_bool a b = true <-> a < b.
Proof.
  unfold Qlt_bool. rewrite negb_true_iff.
  destruct (Qle_bool b a) eqn:E.
  - apply Qle_bool_iff in E. split; [discriminate | intros H; lra].
  - split; [intros _ | reflexivity].
    destruct (Qlt_le_dec a b) as [H | H]; [exact H |].
    apply Qle_bool_iff in H. congruence.
Qed.

Lemma Qlt_bool_false_iff (a b : Q) : Qlt_bool a b = false <-> b <= a.
Proof.
  unfold Qlt_bool. rewrite negb_false_iff. apply Qle_bool_iff.
Qed.

(** On a non-negative number [int] rounds down. *)
Lemma py_int_floor (x : Q) : 0 <= x -> py_int x = Qfloor x.
Proof.
  destruct x as [n d]. unfold Qle, py_int, Qfloor. simpl. intros H.
  apply Z.quot_div_nonneg; lia.
Qed.

Lemma truthy_opt_time_iff (t : Q) : truthy_opt_time (Some t) = true <-> ~ t == 0.
Proof.
  simpl. rewrite negb_true_iff.
  destruct (Qeq_bool t 0) eqn:E.
  - apply Qeq_bool_iff in E. split; [discriminate | tauto].
  - split; [| reflexivity]. intros _ H. apply Qeq_bool_iff in H. congruence.
Qed.

End Numbers.

(** ** The admission gate *)

Section GateFacts.

Local Open Scope Q_scope.

Import Gate.

Lemma spacing_check_refused (now : Q) (s : session) :
  now < last_request_time s + 3 ->
  spacing_check now s
  = ((false, Some (wait_message (3 - (now - last_request_time s)))), s).
Proof.
  intros H. unfold spacing_check.
  destruct (Qlt_bool (now - last_request_time s) 3) eqn:E; [reflexivity |].
  apply Qlt_bool_false_iff in E. lra.
Qed.

Lemma spacing_check_passes (now : Q) (s : session) :
  last_request_time s + 3 <= now ->
  spacing_check now s = ((true, None), s).
Proof.
  intros H. unfold spacing_check.
  destruct (Qlt_bool (now - last_request_time s) 3) eqn:E; [| reflexivity].
  apply Qlt_bool_iff in E. lra.
Qed.

(** Without a lockout in force the answer is that of the spacing test;
    only an elapsed lockout is cleared on the way. *)
Lemma check_without_lockout (now : Q) (s : session) :
  lockout_active now s = false ->
  fst (check_quota_limits now s) = fst (spacing_check now s).
Proof.
  unfold lockout_active, check_quota_limits.
  destruct (quota_reset_time s) as [reset |]; [| reflexivity].
  intros ->.
  destruct (truthy_opt_time (Some reset) && Qle_bool reset now);
    unfold spacing_check; simpl;
    destruct (Qlt_bool (now - last_request_time s) 3); reflexivity.
Qed.

(** C1.  With no lockout in force and [last_request_time = t], a check at
    [now < t + 3] is refused, and the seconds it tells the user to wait are
    [3 - (now - t)] rounded down; a check at [now >= t + 3] is admitted. *)
Theorem spacing_rule (s : session) (now : Q) :
  lockout_active now s = false ->
  let t := last_request_time s in
  (now < t + 3 ->
     fst (check_quota_limits now s)
     = (false, Some (lit "Wait " ++ str_of_int (Qfloor (3 - (now - t)))
                       ++ lit "s before next request.")))
  /\ (t + 3 <= now -> fst (check_quota_limits now s) = (true, None)).
Proof.
  intros Hl t. rewrite (check_without_lockout _ _ Hl). split; intros H.
  - rewrite spacing_check_refused by exact H. simpl. unfold wait_message.
    rewrite py_int_floor; [reflexivity |]. subst t. lra.
  - rewrite spacing_check_passes by exact H. reflexivity.
Qed.

Lemma spacing_rule_witness :
  let s := set_last_request_time 100 initial_session in
  fst (check_quota_limits (1029 # 10) s)
  = (false, Some (lit "Wait 0s before next request."))
  /\ fst (check_quota_limits 103 s) = (true, None).
Proof.
  intros s. split.
  - apply (proj1 (spacing_rule s (1029 # 10) eq_refl)). reflexivity.
  - apply (proj2 (spacing_rule s 103 eq_refl)). discriminate.
Defined.

(** The session state a check leaves behind: the input state, with an
    elapsed lockout cleared. *)
Lemma check_state (now : Q) (s : session) :
  snd (check_quota_limits now s) = s
  \/ snd (check_quota_limits now s) = set_quota_reset_time None s.
Proof.
  unfold check_quota_limits, spacing_check.
  destruct (quota_reset_time s) as [reset |].
  - destruct (truthy_opt_time (Some reset) && Qlt_bool now reset); [by left |].
    destruct (truthy_opt_time (Some reset) && Qle_bool reset now); simpl.
    + right. destruct (Qlt_bool (now - last_request_time s) 3); reflexivity.
    + left. destruct (Qlt_bool (now - last_request_time s) 3); reflexivity.
  - left. destruct (Qlt_bool (now - last_request_time s) 3); reflexivity.
Qed.

Lemma check_running_lockout (now reset : Q) (s : session) :
  quota_reset_time s = Some reset -> ~ reset == 0 -> now < reset ->
  check_quota_limits now s = ((false, Some (locked_message (reset - now))), s).
Proof.
  intros E Hnz Hlt. unfold check_quota_limits. rewrite E.
  apply truthy_opt_time_iff in Hnz. apply Qlt_bool_iff in Hlt.
  rewrite Hnz, Hlt. reflexivity.
Qed.

Lemma check_elapsed_lockout (now reset : Q) (s : session) :
  quota_reset_time s = Some reset -> ~ reset == 0 -> reset <= now ->
  check_quota_limits now s = spacing_check now (set_quota_reset_time None s).
Proof.
  intros E Hnz Hle. unfold check_quota_limits. rewrite E.
  apply truthy_opt_time_iff in Hnz. rewrite Hnz.
  assert (Qlt_bool now reset = false) as -> by (apply Qlt_bool_false_iff; exact Hle).
  apply Qle_bool_iff in Hle. rewrite Hle. reflexivity.
Qed.

(** C2.  After the lockout is recorded at time [t] (seconds since the
    epoch), every check at [now < t + 120] is refused as rate limited, with
    the remaining seconds rounded down, and changes nothing; a check at
    [now >= t + 120] clears the lockout, and admits the request when the
    three seconds of spacing have passed as well. *)
Theorem lockout_rule (s : session) (t now : Q) :
  0 <= t ->
  let s' := record_lockout t s in
  (now < t + 120 ->
     check_quota_limits now s'
     = ((false, Some (lit "Rate limited. Wait "
                        ++ str_of_int (Qfloor (t + 120 - now)) ++ lit "s.")),
        s'))
  /\ (t + 120 <= now ->
       quota_reset_time (snd (check_quota_limits now s')) = None
       /\ (last_request_time s + 3 <= now ->
            fst (check_quota_limits now s') = (true, None))).
Proof.
  intros Ht s'.
  assert (quota_reset_time s' = Some (t + 120)) as E by reflexivity.
  assert (~ t + 120 == 0) as Hnz by lra.
  split; intros H.
  - rewrite (check_running_lockout _ _ _ E Hnz H). unfold locked_message.
    rewrite py_int_floor by lra. reflexivity.
  - rewrite (check_elapsed_lockout _ _ _ E Hnz H). split.
    + unfold spacing_check.
      destruct (Qlt_bool _ 3); reflexivity.
    + intros Hs. rewrite spacing_check_passes; [reflexivity | exact Hs].
Qed.

Lemma lockout_rule_witness :
  let s' := record_lockout 1000 initial_session in
  check_quota_limits (2239 # 2) s'
  = ((false, Some (lit "Rate limited. Wait 0s.")), s')
  /\ check_quota_limits 1120 s'
     = ((true, None), initial_session).
Proof.
  intros s'.
  assert (0 <= 1000) as Ht by discriminate.
  split.
  - apply (proj1 (lockout_rule initial_session 1000 (2239 # 2) Ht)).
    reflexivity.
  - destruct (proj2 (lockout_rule initial_session 1000 1120 Ht)) as [_ Hadm];
      [discriminate |].
    reflexivity.
Defined.

(** C3, as stated, fails: a check made after the lockout has run out
    clears [quota_reset_time]. *)
Lemma check_clears_elapsed_lockout :
  let s := set_quota_reset_time (Some 100) initial_session in
  quota_reset_time s = Some 100
  /\ quota_reset_time (snd (check_quota_limits 200 s)) = None.
Proof. split; reflexivity. Qed.

(** C3, amended.  A check never changes [last_request_time], nor any
    other field than [quota_reset_time]; it leaves the whole state as it
    was while no lockout is set or the lockout still runs, and it sets
    [quota_reset_time] to [None] once a lockout that was set has run out. *)
Theorem check_frame (s : session) (now : Q) :
  let s' := snd (check_quota_limits now s) in
  last_request_time s' = last_request_time s
  /\ conversation_history s' = conversation_history s
  /\ current_context s' = current_context s
  /\ current_file_name s' = current_file_name s
  /\ api_key s' = api_key s
  /\ generation_count s' = generation_count s
  /\ (quota_reset_time s = None -> s' = s)
  /\ (forall reset, quota_reset_time s = Some reset ->
        (now < reset -> s' = s)
        /\ (~ reset == 0 -> reset <= now -> quota_reset_time s' = None)).
Proof.
  intros s'. subst s'.
  repeat match goal with |- _ /\ _ => split end;
    try (destruct (check_state now s) as [-> | ->]; reflexivity).
  - intros E. unfold check_quota_limits, spacing_check. rewrite E.
    destruct (Qlt_bool _ 3); reflexivity.
  - intros reset E. split.
    + intros Hlt. unfold check_quota_limits, spacing_check. rewrite E.
      assert (Qle_bool reset now = false) as Hle.
      { destruct (Qle_bool reset now) eqn:B; [| reflexivity].
        apply Qle_bool_iff in B. lra. }
      rewrite Hle, andb_false_r.
      destruct (truthy_opt_time (Some reset) && Qlt_bool now reset); [reflexivity |].
      destruct (Qlt_bool _ 3); reflexivity.
    + intros Hnz Hle. rewrite (check_elapsed_lockout _ _ _ E Hnz Hle).
      unfold spacing_check. destruct (Qlt_bool _ 3); reflexivity.
Qed.

Lemma check_frame_witness :
  let s := set_quota_reset_time (Some 100) initial_session in
  last_request_time (snd (check_quota_limits 200 s)) = last_request_time s
  /\ quota_reset_time (snd (check_quota_limits 200 s)) = None
  /\ snd (check_quota_limits 50 s) = s.
Proof.
  intros s.
  pose proof (check_frame s 200) as (Hl & _ & _ & _ & _ & _ & _ & H200).
  pose proof (check_frame s 50) as (_ & _ & _ & _ & _ & _ & _ & H50).
  split; [exact Hl | split].
  - apply (proj2 (H200 100 eq_refl)); discriminate.
  - apply (proj1 (H50 100 eq_refl)). reflexivity.
Defined.

End GateFacts.

(** ** Strings *)

Section StringFacts.

Lemma starts_with_iff (p s : str) :
  starts_with p s = true <-> exists post, s = p ++ post.
Proof.
  revert s. induction p as [| a p IH]; intros s; simpl.
  - split; [intros _; by exists s | reflexivity].
  - destruct s as [| b s].
    + split; [discriminate | intros [post H]; discriminate].
    + rewrite andb_true_iff, N.eqb_eq, IH. split.
      * intros [-> [post ->]]. by exists post.
      * intros [post H]. injection H as -> ->. split; [reflexivity | by exists post].
Qed.

(** [sub in s] decides that [sub] occurs in [s]. *)
Lemma contains_iff (sub s : str) :
  contains sub s = true <-> Spec.occurs_in sub s.
Proof.
  unfold Spec.occurs_in. induction s as [| c s IH].
  - simpl. rewrite orb_false_r, starts_with_iff. split.
    + intros [post H]. by exists [], post.
    + intros (pre & post & H). destruct pre; [by exists post |discriminate].
  - cbn [contains]. rewrite orb_true_iff, starts_with_iff, IH. split.
    + intros [[post H] | (pre & post & H)].
      * by exists [], post.
      * exists (c :: pre), post. by rewrite H.
    + intros (pre & post & H). destruct pre as [| c' pre].
      * left. by exists post.
      * right. injection H as _ H. by exists pre, post.
Qed.

(** Looking for a lower-case word in [s.lower()] finds it in [s] in any
    mix of cases. *)
Lemma contains_lower_iff (word s : str) :
  contains word (lower s) = true <-> Spec.occurs_ignoring_case word s.
Proof.
  rewrite contains_iff. unfold Spec.occurs_in, Spec.occurs_ignoring_case, lower.
  split.
  - intros (pre & post & H).
    apply List.map_eq_app in H as (pre' & rest & -> & Hpre & H).
    apply List.map_eq_app in H as (mid & post' & -> & Hmid & Hpost).
    by exists pre', mid, post'.
  - intros (pre & mid & post & -> & Hmid).
    exists (List.map lower_char pre), (List.map lower_char post).
    by rewrite !List.map_app, Hmid.
Qed.

Lemma is_quota_error_iff (msg : str) :
  Generator.is_quota_error msg = true <-> Spec.quota_like msg.
Proof.
  unfold Generator.is_quota_error, Spec.quota_like.
  rewrite !orb_true_iff, contains_iff, !contains_lower_iff. tauto.
Qed.

Lemma slice_to_length (n : Z) (s : str) :
  (0 <= n)%Z -> (len (slice_to n s) <= n)%Z.
Proof.
  intros H. unfold slice_to, len.
  destruct (0 <=? n)%Z eqn:E; [| lia].
  rewrite List.length_firstn. lia.
Qed.

Lemma slice_to_short (n : Z) (s : str) :
  (len s <= n)%Z -> slice_to n s = s.
Proof.
  unfold slice_to, len. intros H.
  destruct (0 <=? n)%Z eqn:E; [| lia].
  apply List.firstn_all2. lia.
Qed.

Lemma slice_to_long (n : Z) (s : str) :
  (0 <= n < len s)%Z ->
  s = slice_to n s ++ skipn (Z.to_nat n) s /\ len (slice_to n s) = n.
Proof.
  unfold slice_to, len. intros H.
  destruct (0 <=? n)%Z eqn:E; [| lia]. split.
  - symmetry. apply List.firstn_skipn.
  - rewrite List.length_firstn. lia.
Qed.

End StringFacts.

(** ** The question generator *)

Section GeneratorFacts.

Local Open Scope Q_scope.

Import Generator.

Lemma model_obtained_quietly (c : client) (key model : str) :
  fst (get_generative_model c key) = Some model ->
  get_generative_model c key = (Some model, []).
Proof.
  unfold get_generative_model.
  destruct (configure c key); [discriminate |].
  destruct (first_model c model_options); [| discriminate].
  simpl. by intros [= ->].
Qed.

(** After a check that admits the request no lockout is left in the
    session state, whatever the time. *)
Lemma passed_check_no_lockout (now now' : Q) (s : session) :
  fst (fst (Gate.check_quota_limits now s)) = true ->
  Gate.lockout_active now' (snd (Gate.check_quota_limits now s)) = false.
Proof.
  unfold Gate.check_quota_limits, Gate.spacing_check, Gate.lockout_active.
  destruct (quota_reset_time s) as [reset |] eqn:E.
  - destruct (truthy_opt_time (Some reset)) eqn:T; simpl.
    + destruct (Qlt_bool now reset) eqn:L; [discriminate |].
      apply Qlt_bool_false_iff, Qle_bool_iff in L. rewrite L.
      destruct (Qlt_bool _ 3); reflexivity.
    + destruct (Qlt_bool _ 3); simpl; rewrite E; simpl in *; by rewrite ?T.
  - destruct (Qlt_bool _ 3); simpl; by rewrite E.
Qed.

(** An attempt the gate refuses shows the gate's message and goes no
    further. *)
Lemma generate_refused (c : client) (k : clock) (key content : str)
    (mcq_count short_count : Z) (difficulty_level topic_focus : str)
    (s : session) (msg : str) :
  fst (Gate.check_quota_limits (at_check k) s) = (false, Some msg) ->
  generate_questions c k key content mcq_count short_count
    difficulty_level topic_focus s
  = (None, snd (Gate.check_quota_limits (at_check k) s),
     [UiWarning ([9203%N] ++ lit " " ++ msg)]).
Proof.
  intros H. unfold generate_questions.
  destruct (Gate.check_quota_limits (at_check k) s) as [[ok m] s1].
  cbn [fst snd] in *. injection H as -> ->. reflexivity.
Qed.

Variables (c : client) (k : clock) (key content : str)
  (mcq_count short_count : Z) (difficulty_level topic_focus : str)
  (s : session) (model : str).

Let checked := Gate.check_quota_limits (at_check k) s.
Let prompt :=
  build_prompt content mcq_count short_count difficulty_level topic_focus.
Let attempt :=
  generate_questions c k key content mcq_count short_count
    difficulty_level topic_focus s.

(** An attempt that is admitted and gets a model records the time and
    calls the model with the prompt. *)
Lemma generate_dispatched :
  fst (fst checked) = true ->
  fst (get_generative_model c key) = Some model ->
  attempt =
    let s2 := set_last_request_time (at_dispatch k) (snd checked) in
    match generate_content c model prompt with
    | Responded text => (Some text, s2, [])
    | NoResponse => (None, s2, [])
    | Raised error_str =>
        if is_quota_error error_str
        then (None, set_quota_reset_time (Some (at_error k + 120)) s2,
              [UiError quota_message])
        else (None, s2, [UiError (failure_message error_str)])
    end.
Proof.
  intros Hadm Hmodel. subst attempt checked prompt. unfold generate_questions.
  destruct (Gate.check_quota_limits (at_check k) s) as [[can_proceed msg] s1].
  simpl in Hadm. subst can_proceed. simpl negb. cbv iota.
  rewrite (model_obtained_quietly _ _ _ Hmodel). reflexivity.
Qed.

(** C4.  The prompt embeds the source text cut to its first 7000
    characters.  A text of at most 7000 characters is embedded as it is,
    with no marker; a longer one is embedded as its first 7000 characters
    followed by the truncation marker, so a text of 10000 characters
    leaves exactly 7000 characters of content and the marker.  This prompt
    is the one the model is called with. *)
Theorem prompt_truncation :
  let embedded := truncate_content content in
  prompt = prompt_head mcq_count short_count difficulty_level topic_focus
           ++ embedded ++ prompt_tail mcq_count short_count
  /\ ((len content <= 7000)%Z -> embedded = content)
  /\ ((7000 < len content)%Z ->
        exists kept dropped,
          content = kept ++ dropped /\ len kept = 7000%Z /\ dropped <> []
          /\ embedded = kept ++ truncation_marker)
  /\ (len content = 10000%Z ->
        exists kept dropped,
          content = kept ++ dropped /\ len kept = 7000%Z
          /\ len dropped = 3000%Z
          /\ embedded = kept ++ nl ++ lit "[Content truncated for optimization]")
  /\ (fst (fst checked) = true ->
      fst (get_generative_model c key) = Some model ->
      fst (fst attempt)
      = match generate_content c model
                (prompt_head mcq_count short_count difficulty_level topic_focus
                 ++ embedded ++ prompt_tail mcq_count short_count) with
        | Responded text => Some text
        | _ => None
        end).
Proof.
  intros embedded.
  assert (forall n, (7000 < len content)%Z -> len content = n ->
            exists kept dropped,
              content = kept ++ dropped /\ len kept = 7000%Z
              /\ len dropped = (n - 7000)%Z
              /\ embedded = kept ++ truncation_marker) as Hlong.
  { intros n Hlt Hn.
    destruct (slice_to_long 7000 content) as [Hsplit Hlen]; [lia |].
    exists (slice_to 7000 content), (skipn (Z.to_nat 7000) content).
    split; [exact Hsplit | split; [exact Hlen | split]].
    - unfold len in *. rewrite List.length_skipn.
      clear Hsplit Hlen. subst n. rewrite Nat2Z.inj_sub by lia.
      rewrite Z2Nat.id by lia. reflexivity.
    - subst embedded. unfold truncate_content, max_chars.
      apply Z.ltb_lt in Hlt. by rewrite Hlt. }
  split; [reflexivity | split; [| split; [| split]]].
  - intros Hle. subst embedded. unfold truncate_content, max_chars.
    assert ((7000 <? len content)%Z = false) as -> by (apply Z.ltb_ge; exact Hle).
    by apply slice_to_short.
  - intros Hlt.
    destruct (Hlong _ Hlt eq_refl) as (kept & dropped & H1 & H2 & H3 & H4).
    exists kept, dropped. repeat split; try assumption.
    intros ->. unfold len in *. cbn [length] in H3. lia.
  - intros Hlen.
    destruct (Hlong 10000%Z ltac:(lia) Hlen) as (kept & dropped & H1 & H2 & H3 & H4).
    exists kept, dropped. repeat split; assumption.
  - intros Hadm Hmodel. rewrite (generate_dispatched Hadm Hmodel). simpl.
    fold embedded. subst prompt. unfold build_prompt. fold embedded.
    destruct (generate_content c model _) as [text | | error_str];
      try reflexivity.
    destruct (is_quota_error error_str); reflexivity.
Qed.

(** C5.  When the external call raises an error whose message holds
    [429], or [quota] or [exceeded] in any mix of cases, the attempt shows
    the quota message and sets the lockout to 120 seconds after the time
    read in the handler; for any other message it shows the failure text
    with the first 200 characters of the message, and the session has no
    lockout. *)
Theorem failure_classification (error_str : str) :
  fst (fst checked) = true ->
  fst (get_generative_model c key) = Some model ->
  generate_content c model prompt = Raised error_str ->
  let s2 := set_last_request_time (at_dispatch k) (snd checked) in
  (Spec.quota_like error_str ->
     attempt = (None, set_quota_reset_time (Some (at_error k + 120)) s2,
                [UiError quota_message]))
  /\ (~ Spec.quota_like error_str ->
       exists shown,
         attempt
         = (None, s2,
            [UiError ([10060%N] ++ lit " Error generating questions: " ++ shown)])
         /\ len shown = Z.min 200 (len error_str)
         /\ (exists cut, error_str = shown ++ cut)
         /\ ((len error_str <= 200)%Z -> shown = error_str)
         /\ forall now, Gate.lockout_active now s2 = false).
Proof.
  intros Hadm Hmodel Hcall s2.
  pose proof (generate_dispatched Hadm Hmodel) as Hrun.
  rewrite Hcall in Hrun. cbv zeta in Hrun. fold s2 in Hrun.
  split; intros Hq.
  - apply is_quota_error_iff in Hq. by rewrite Hq in Hrun.
  - assert (is_quota_error error_str = false) as Hn.
    { destruct (is_quota_error error_str) eqn:E; [| reflexivity].
      apply is_quota_error_iff in E. contradiction. }
    rewrite Hn in Hrun. exists (slice_to 200 error_str).
    split; [exact Hrun | split; [| split; [| split]]].
    + unfold slice_to, len. cbn [Z.leb Z.compare].
      rewrite List.length_firstn. lia.
    + exists (skipn (Z.to_nat 200) error_str). unfold slice_to. simpl.
      symmetry. apply List.firstn_skipn.
    + apply slice_to_short.
    + intros now. apply (passed_check_no_lockout (at_check k) now s Hadm).
Qed.

(** C8.  An attempt that passes the admission check and reaches the
    external call has [last_request_time] set to the time read just before
    the call, whatever the call does; when the call fails with an error
    that is not a quota error, a next attempt less than three seconds after
    that time is refused by the spacing rule and calls nothing. *)
Theorem request_recorded_before_call :
  fst (fst checked) = true ->
  fst (get_generative_model c key) = Some model ->
  last_request_time (snd (fst attempt)) = at_dispatch k
  /\ forall error_str,
       generate_content c model prompt = Raised error_str ->
       ~ Spec.quota_like error_str ->
       forall (c' : client) (k' : clock) (key' content' : str)
              (mcq' short' : Z) (difficulty' topic' : str),
         at_check k' < at_dispatch k + 3 ->
         let next :=
           generate_questions c' k' key' content' mcq' short' difficulty'
             topic' (snd (fst attempt)) in
         fst (fst next) = None
         /\ last_request_time (snd (fst next)) = at_dispatch k
         /\ snd next
            = [UiWarning ([9203%N] ++ lit " Wait "
                 ++ str_of_int (Qfloor (3 - (at_check k' - at_dispatch k)))
                 ++ lit "s before next request.")].
Proof.
  intros Hadm Hmodel.
  pose proof (generate_dispatched Hadm Hmodel) as Hrun. cbv zeta in Hrun.
  split.
  - rewrite Hrun.
    destruct (generate_content c model prompt) as [text | | error_str];
      try reflexivity.
    destruct (is_quota_error error_str); reflexivity.
  - intros error_str Hcall Hq c' k' key' content' mcq' short' difficulty' topic' Hsoon.
    assert (is_quota_error error_str = false) as Hn.
    { destruct (is_quota_error error_str) eqn:E; [| reflexivity].
      apply is_quota_error_iff in E. contradiction. }
    rewrite Hcall, Hn in Hrun. rewrite Hrun. cbn [fst snd].
    set (s2 := set_last_request_time (at_dispatch k) (snd checked)).
    assert (Gate.lockout_active (at_check k') s2 = false) as Hfree
      by apply (passed_check_no_lockout (at_check k) (at_check k') s Hadm).
    assert (last_request_time s2 = at_dispatch k) as Hlast by reflexivity.
    pose proof (check_without_lockout (at_check k') s2 Hfree) as Hfst.
    rewrite spacing_check_refused in Hfst by (rewrite Hlast; exact Hsoon).
    cbn [fst] in Hfst. rewrite Hlast in Hfst.
    rewrite (generate_refused _ _ _ _ _ _ _ _ _ _ Hfst). cbn [fst snd].
    split; [reflexivity | split].
    + destruct (check_state (at_check k') s2) as [-> | ->]; reflexivity.
    + unfold Gate.wait_message. rewrite py_int_floor by lra. reflexivity.
Qed.

End GeneratorFacts.

Section GeneratorRuns.

Local Open Scope Q_scope.

Import Generator Sample.

Lemma prompt_truncation_witness :
  truncate_content (lit "short text") = lit "short text"
  /\ (exists kept dropped,
        text_of_length 10000 = kept ++ dropped /\ len kept = 7000%Z
        /\ len dropped = 3000%Z
        /\ truncate_content (text_of_length 10000)
           = kept ++ nl ++ lit "[Content truncated for optimization]")
  /\ fst (fst (generate_questions echo_client (clock_at 1000) (lit "key")
                 (lit "short text") 5 3 (lit "Medium") (lit "All topics")
                 initial_session))
     = Some (prompt_head 5 3 (lit "Medium") (lit "All topics")
             ++ lit "short text" ++ prompt_tail 5 3).
Proof.
  pose proof (prompt_truncation echo_client (clock_at 1000) (lit "key")
                (lit "short text") 5 3 (lit "Medium") (lit "All topics")
                initial_session (lit "gemini-2.0-flash"))
    as (_ & Hshort & _ & _ & Hsent).
  pose proof (prompt_truncation echo_client (clock_at 1000) (lit "key")
                (text_of_length 10000) 5 3 (lit "Medium") (lit "All topics")
                initial_session (lit "gemini-2.0-flash"))
    as (_ & _ & _ & Hlong & _).
  split; [| split].
  - apply Hshort. vm_compute. discriminate.
  - apply Hlong. vm_compute. reflexivity.
  - rewrite (Hsent eq_refl eq_refl). vm_compute. reflexivity.
Defined.

Lemma failure_classification_witness :
  generate_questions (failing_client (lit "429 Resource has been exhausted"))
    (clock_at 1000) (lit "key") (lit "text") 5 3 (lit "Medium")
    (lit "All topics") initial_session
  = (None,
     set_quota_reset_time (Some (1000 + 2 + 120))
       (set_last_request_time (1000 + 1) initial_session),
     [UiError quota_message])
  /\ generate_questions (failing_client (lit "Deadline expired"))
       (clock_at 1000) (lit "key") (lit "text") 5 3 (lit "Medium")
       (lit "All topics") initial_session
     = (None, set_last_request_time (1000 + 1) initial_session,
        [UiError ([10060%N] ++ lit " Error generating questions: Deadline expired")]).
Proof.
  split.
  - apply (failure_classification
             (failing_client (lit "429 Resource has been exhausted"))
             (clock_at 1000) (lit "key") (lit "text") 5 3 (lit "Medium")
             (lit "All topics") initial_session (lit "gemini-2.0-flash")
             (lit "429 Resource has been exhausted") eq_refl eq_refl eq_refl).
    apply is_quota_error_iff. reflexivity.
  - destruct (failure_classification
             (failing_client (lit "Deadline expired"))
             (clock_at 1000) (lit "key") (lit "text") 5 3 (lit "Medium")
             (lit "All topics") initial_session (lit "gemini-2.0-flash")
             (lit "Deadline expired") eq_refl eq_refl eq_refl) as [_ H].
    destruct H as (shown & Hrun & _ & _ & Hsame & _).
    + intros Hq. apply is_quota_error_iff in Hq. discriminate.
    + rewrite Hrun, (Hsame ltac:(vm_compute; discriminate)). reflexivity.
Defined.

Lemma request_recorded_before_call_witness :
  let failed :=
    generate_questions (failing_client (lit "Deadline expired"))
      (clock_at 1000) (lit "key") (lit "text") 5 3 (lit "Medium")
      (lit "All topics") initial_session in
  last_request_time (snd (fst failed)) = 1000 + 1
  /\ snd (generate_questions echo_client (clock_at 1002) (lit "key")
            (lit "text") 5 3 (lit "Medium") (lit "All topics")
            (snd (fst failed)))
     = [UiWarning ([9203%N] ++ lit " Wait 2s before next request.")].
Proof.
  intros failed.
  destruct (request_recorded_before_call
              (failing_client (lit "Deadline expired"))
              (clock_at 1000) (lit "key") (lit "text") 5 3 (lit "Medium")
              (lit "All topics") initial_session (lit "gemini-2.0-flash")
              eq_refl eq_refl) as [Hlast Hnext].
  split; [exact Hlast |].
  assert (~ Spec.quota_like (lit "Deadline expired")) as Hq.
  { intros Hq. apply is_quota_error_iff in Hq. discriminate. }
  destruct (Hnext (lit "Deadline expired") eq_refl Hq echo_client
              (clock_at 1002) (lit "key") (lit "text") 5%Z 3%Z (lit "Medium")
              (lit "All topics")) as (_ & _ & Hshown).
  - reflexivity.
  - exact Hshown.
Defined.

End GeneratorRuns.

(** ** White space *)

Section StripFacts.

Lemma lstrip_head (s rest : str) (c : N) :
  lstrip s = c :: rest -> is_space c = false.
Proof.
  induction s as [| a s IH]; simpl; [discriminate |].
  destruct (is_space a) eqn:E; [exact IH |].
  by intros [= <- _].
Qed.

Lemma lstrip_nil_iff (s : str) : lstrip s = [] <-> Spec.blank s.
Proof.
  unfold Spec.blank. induction s as [| a s IH]; simpl.
  - split; [intros _; constructor | reflexivity].
  - destruct (is_space a) eqn:E.
    + rewrite IH. split; [by constructor | by inversion 1].
    + split; [discriminate |]. inversion 1. congruence.
Qed.

Lemma blank_rev (s : str) : Spec.blank (rev s) <-> Spec.blank s.
Proof.
  unfold Spec.blank. rewrite !List.Forall_forall.
  split; intros H c Hc; apply H; [by apply List.in_rev in Hc | by apply List.in_rev].
Qed.

(** Stripping leaves nothing exactly of a blank text. *)
Lemma strip_nil_iff (s : str) : strip s = [] <-> Spec.blank s.
Proof.
  unfold strip, rstrip. rewrite lstrip_nil_iff, blank_rev. split.
  - intros H. apply blank_rev, lstrip_nil_iff.
    destruct (lstrip (rev s)) as [| c rest] eqn:E; [reflexivity |].
    apply lstrip_head in E. inversion H. congruence.
  - intros H. apply blank_rev, lstrip_nil_iff in H. rewrite H. constructor.
Qed.

Lemma truthy_strip_iff (s : str) :
  truthy_str (strip s) = true <-> ~ Spec.blank s.
Proof.
  rewrite <- strip_nil_iff. destruct (strip s); simpl; split; done.
Qed.

End StripFacts.

(** ** The saved contexts *)

Section StoreFacts.

Import Store.

Lemma pad2_inj (a b : N) : pad2 a = pad2 b -> a = b.
Proof.
  unfold pad2, digit. intros [= Hq Hr].
  rewrite (N.div_mod a 10), (N.div_mod b 10) by discriminate. lia.
Qed.

Lemma strftime_HMS_inj (d1 d2 : datetime) :
  strftime_HMS d1 = strftime_HMS d2 <->
  hour d1 = hour d2 /\ minute d1 = minute d2 /\ second d1 = second d2.
Proof.
  split.
  - unfold strftime_HMS. intros H.
    change (pad2 (hour d1) ++ 58%N :: pad2 (minute d1) ++ 58%N :: pad2 (second d1)
            = pad2 (hour d2) ++ 58%N :: pad2 (minute d2) ++ 58%N :: pad2 (second d2)) in H.
    unfold pad2 at 1 2 4 5 in H. cbn [app] in H.
    injection H as H1 H2 H3 H4 H5.
    repeat split; apply pad2_inj; unfold pad2; congruence.
  - unfold strftime_HMS. by intros (-> & -> & ->).
Qed.

Lemma context_key_inj (file : option str) (d1 d2 : datetime) :
  context_key file d1 = context_key file d2 <->
  hour d1 = hour d2 /\ minute d1 = minute d2 /\ second d1 = second d2.
Proof.
  rewrite <- strftime_HMS_inj. unfold context_key. split.
  - intros H. by apply app_inv_head, app_inv_head in H.
  - by intros ->.
Qed.

Lemma on_save_nonblank (now_key now_stamp : datetime) (s : session) :
  ~ Spec.blank (current_context s) ->
  on_save now_key now_stamp s
  = (set_history (<[context_key (current_file_name s) now_key
                    := make_entry s now_stamp]> (conversation_history s)) s,
     [UiSuccess ([9989%N] ++ lit " Context saved!")]).
Proof.
  intros H. apply truthy_strip_iff in H. unfold on_save. by rewrite H.
Qed.

Lemma load_del_buttons_differ (k1 k2 : str) : load_button k1 <> del_button k2.
Proof. discriminate. Qed.

Lemma load_button_inj (k1 k2 : str) : load_button k1 = load_button k2 -> k1 = k2.
Proof. apply app_inv_head. Qed.

Lemma del_button_inj (k1 k2 : str) : del_button k1 = del_button k2 -> k1 = k2.
Proof. apply app_inv_head. Qed.

(** With no saved context under [key], no button of the loop is the
    "Delete" button of [key]. *)
Lemma contexts_loop_delete_absent (key : str)
    (items : list (str * saved_context)) (s : session) :
  key ∉ items.*1 -> contexts_loop (del_button key) items s = (s, []).
Proof.
  induction items as [| [k data] rest IH]; [reflexivity |].
  rewrite fmap_cons, not_elem_of_cons. cbn [fst]. intros [Hne Hrest].
  cbn [contexts_loop].
  destruct (decide (del_button key = load_button k)) as [E | _].
  { symmetry in E. by apply load_del_buttons_differ in E. }
  destruct (decide (del_button key = del_button k)) as [E | _].
  { apply del_button_inj in E. contradiction. }
  by apply IH.
Qed.

Lemma contexts_loop_delete_present (key : str)
    (items : list (str * saved_context)) (s : session) :
  key ∈ items.*1 ->
  contexts_loop (del_button key) items s
  = (set_history (delete key (conversation_history s)) s,
     [UiSuccess ([9989%N] ++ lit " Context deleted!")]).
Proof.
  induction items as [| [k data] rest IH]; [by rewrite elem_of_nil |].
  rewrite fmap_cons, elem_of_cons. cbn [fst]. intros H.
  cbn [contexts_loop].
  destruct (decide (del_button key = load_button k)) as [E | _].
  { symmetry in E. by apply load_del_buttons_differ in E. }
  destruct (decide (del_button key = del_button k)) as [E | Hne].
  { apply del_button_inj in E. by subst k. }
  destruct H as [-> | H]; [done | by apply IH].
Qed.

Lemma contexts_loop_load (key : str) (entry : saved_context)
    (items : list (str * saved_context)) (s : session) :
  NoDup items.*1 -> (key, entry) ∈ items ->
  contexts_loop (load_button key) items s
  = (set_current (sc_content entry) (sc_file entry) s,
     [UiSuccess ([9989%N] ++ lit " Context loaded!")]).
Proof.
  induction items as [| [k data] rest IH]; [by rewrite elem_of_nil |].
  rewrite fmap_cons, NoDup_cons, elem_of_cons. cbn [fst].
  intros [Hfresh Hnodup] H. cbn [contexts_loop].
  destruct (decide (load_button key = load_button k)) as [E | Hne].
  - apply load_button_inj in E. subst k.
    destruct H as [[= <-] | H]; [reflexivity |].
    exfalso. apply Hfresh. apply list_elem_of_fmap. by exists (key, entry).
  - destruct (decide (load_button key = del_button k)) as [E | _].
    { by apply load_del_buttons_differ in E. }
    destruct H as [[= -> _] | H]; [done | by apply IH].
Qed.

Lemma on_load_present (key : str) (entry : saved_context) (s : session) :
  conversation_history s !! key = Some entry ->
  on_load key s
  = (set_current (sc_content entry) (sc_file entry) s,
     [UiSuccess ([9989%N] ++ lit " Context loaded!")]).
Proof.
  intros H. unfold on_load, saved_contexts_panel.
  apply contexts_loop_load.
  - apply NoDup_fst_map_to_list.
  - by apply elem_of_map_to_list.
Qed.

Lemma key_in_items (key : str) (m : gmap str saved_context) :
  key ∈ (map_to_list m).*1 <-> is_Some (m !! key).
Proof.
  rewrite list_elem_of_fmap. split.
  - intros ([k e] & -> & H). apply elem_of_map_to_list in H. by exists e.
  - intros [e H]. exists (key, e). split; [done | by apply elem_of_map_to_list].
Qed.

Import Sample.

(** C6, as stated, fails: the key holds the time of day to the second and
    no date, so a save of [notes.txt] at noon and a save of [notes.txt] at
    noon of the next day go under one key, and the second replaces the
    first. *)
Lemma saves_at_same_time_of_day_collide :
  let s1 := with_notes (lit "first draft") initial_session in
  let saved1 := fst (on_save (noon 1) (noon 1) s1) in
  let s2 := with_notes (lit "second draft") saved1 in
  let saved2 := fst (on_save (noon 2) (noon 2) s2) in
  let key := lit "notes.txt_12:00:00" in
  context_key (current_file_name s1) (noon 1) = key
  /\ context_key (current_file_name s2) (noon 2) = key
  /\ sc_content <$> conversation_history saved1 !! key = Some (lit "first draft")
  /\ sc_content <$> conversation_history saved2 !! key = Some (lit "second draft")
  /\ size (conversation_history saved2) = 1.
Proof. repeat split; vm_compute; reflexivity. Qed.

(** C6, amended.  Two saves under the same current file name, each of a
    text that is not blank, get distinct keys exactly when their times
    differ in the hour, the minute or the second of the day; the second
    save then leaves the entry of the first in place, next to its own. *)
Theorem save_keys_distinct (s1 s2 : session) (d1 d1' d2 d2' : datetime) :
  valid_datetime d1 -> valid_datetime d2 ->
  ~ Spec.blank (current_context s1) -> ~ Spec.blank (current_context s2) ->
  current_file_name s1 = current_file_name s2 ->
  let key1 := context_key (current_file_name s1) d1 in
  let key2 := context_key (current_file_name s2) d2 in
  (key1 <> key2 <->
     (hour d1, minute d1, second d1) <> (hour d2, minute d2, second d2))
  /\ conversation_history (fst (on_save d1 d1' s1)) !! key1
     = Some (make_entry s1 d1')
  /\ (key1 <> key2 ->
      forall entry, conversation_history s2 !! key1 = Some entry ->
        conversation_history (fst (on_save d2 d2' s2)) !! key1 = Some entry
        /\ conversation_history (fst (on_save d2 d2' s2)) !! key2
           = Some (make_entry s2 d2')).
Proof.
  intros _ _ Hs1 Hs2 Hfile key1 key2.
  rewrite (on_save_nonblank d1 d1' s1 Hs1), (on_save_nonblank d2 d2' s2 Hs2).
  cbn [fst set_history conversation_history]. fold key1 key2.
  split; [| split].
  - subst key1 key2. rewrite Hfile, context_key_inj. split.
    + intros H [= Hh Hm Hsec]. by apply H.
    + intros H (Hh & Hm & Hsec). apply H. congruence.
  - apply lookup_insert_eq.
  - intros Hne entry Hentry. split.
    + by rewrite lookup_insert_ne.
    + apply lookup_insert_eq.
Qed.

Lemma save_keys_distinct_witness :
  let s1 := with_notes (lit "first draft") initial_session in
  let saved1 := fst (on_save (noon 1) (noon 1) s1) in
  let s2 := with_notes (lit "second draft") saved1 in
  let saved2 := fst (on_save (one_past_noon 1) (one_past_noon 1) s2) in
  sc_content <$> conversation_history saved2 !! lit "notes.txt_12:00:00"
  = Some (lit "first draft")
  /\ sc_content <$> conversation_history saved2 !! lit "notes.txt_12:00:01"
     = Some (lit "second draft").
Proof.
  intros s1 saved1 s2 saved2.
  assert (valid_datetime (noon 1)) as V1 by (vm_compute; intuition discriminate).
  assert (valid_datetime (one_past_noon 1)) as V2
    by (vm_compute; intuition discriminate).
  assert (~ Spec.blank (current_context s1)) as B1
    by (apply truthy_strip_iff; reflexivity).
  assert (~ Spec.blank (current_context s2)) as B2
    by (apply truthy_strip_iff; reflexivity).
  destruct (save_keys_distinct s1 s2 (noon 1) (noon 1) (one_past_noon 1)
              (one_past_noon 1) V1 V2 B1 B2 eq_refl) as (Hiff & Hfirst & Hkeep).
  destruct (Hkeep ltac:(apply Hiff; discriminate) (make_entry s1 (noon 1)) Hfirst)
    as [Hone Htwo].
  split.
  - change (lit "notes.txt_12:00:00")
      with (context_key (current_file_name s1) (noon 1)).
    fold saved2 in Hone. by rewrite Hone.
  - change (lit "notes.txt_12:00:01")
      with (context_key (current_file_name s2) (one_past_noon 1)).
    fold saved2 in Htwo. by rewrite Htwo.
Defined.

(** C7.  Pressing "Delete" for a key that is not among the saved contexts
    changes nothing; for a key that is there it removes that entry and no
    other, and touches nothing else of the session; deleting a second time
    changes nothing more. *)
Theorem delete_idempotent (key : str) (s : session) :
  (conversation_history s !! key = None -> on_delete key s = (s, []))
  /\ (is_Some (conversation_history s !! key) ->
      let s' := fst (on_delete key s) in
      conversation_history s' !! key = None
      /\ (forall other, other <> key ->
            conversation_history s' !! other = conversation_history s !! other)
      /\ size (conversation_history s) = S (size (conversation_history s'))
      /\ set_history (conversation_history s) s' = s)
  /\ fst (on_delete key (fst (on_delete key s))) = fst (on_delete key s).
Proof.
  assert (conversation_history s !! key = None -> on_delete key s = (s, []))
    as Habsent.
  { intros H. unfold on_delete, saved_contexts_panel.
    apply contexts_loop_delete_absent. rewrite key_in_items, H.
    by intros [? ?]. }
  assert (forall s0, is_Some (conversation_history s0 !! key) ->
            fst (on_delete key s0)
            = set_history (delete key (conversation_history s0)) s0)
    as Hpresent.
  { intros s0 H. unfold on_delete, saved_contexts_panel.
    rewrite contexts_loop_delete_present; [reflexivity |].
    by apply key_in_items. }
  split; [exact Habsent | split].
  - intros H s'. subst s'. rewrite (Hpresent s H).
    cbn [set_history conversation_history]. split; [| split; [| split]].
    + apply lookup_delete_eq.
    + intros other Hne. by apply lookup_delete_ne.
    + destruct H as [entry H].
      rewrite <- (insert_delete_id (conversation_history s) key entry H) at 1.
      apply map_size_insert_None, lookup_delete_eq.
    + by destruct s.
  - destruct (conversation_history s !! key) as [entry |] eqn:E.
    + rewrite (Hpresent s) by (rewrite E; eauto).
      unfold on_delete, saved_contexts_panel.
      rewrite contexts_loop_delete_absent; [reflexivity |].
      rewrite key_in_items. cbn [set_history conversation_history].
      rewrite lookup_delete_eq. by intros [? ?].
    + rewrite (Habsent eq_refl). cbn [fst]. by rewrite (Habsent eq_refl).
Qed.

Lemma delete_idempotent_witness :
  let saved :=
    fst (on_save (noon 1) (noon 1) (with_notes (lit "draft") initial_session)) in
  on_delete (lit "report.pdf_09:30:00") saved = (saved, [])
  /\ conversation_history (fst (on_delete (lit "notes.txt_12:00:00") saved))
       !! lit "notes.txt_12:00:00" = None.
Proof.
  intros saved.
  destruct (delete_idempotent (lit "report.pdf_09:30:00") saved) as (Habsent & _).
  destruct (delete_idempotent (lit "notes.txt_12:00:00") saved) as (_ & Hpresent & _).
  split.
  - apply Habsent. vm_compute. reflexivity.
  - apply Hpresent. vm_compute. eauto.
Defined.

(** The two handlers alone, up to the call of [st.rerun()] in the "Load"
    branch and without the run that call starts: after a save of a text
    that is not blank, the entry filed under the new key holds the current
    text and file name; the assignments of "Load", from any state that
    still holds the entry, make the entry's content and file name the
    current ones and leave the saved contexts as they were. *)
Theorem save_load_roundtrip (s : session) (now_key now_stamp : datetime) :
  ~ Spec.blank (current_context s) ->
  let key := context_key (current_file_name s) now_key in
  let saved := fst (on_save now_key now_stamp s) in
  exists entry,
    conversation_history saved !! key = Some entry
    /\ sc_content entry = current_context s
    /\ sc_file entry = current_file_name s
    /\ current_context (fst (on_load key saved)) = current_context s
    /\ current_file_name (fst (on_load key saved)) = current_file_name s
    /\ conversation_history (fst (on_load key saved)) = conversation_history saved
    /\ forall later, conversation_history later !! key = Some entry ->
         current_context (fst (on_load key later)) = sc_content entry
         /\ current_file_name (fst (on_load key later)) = sc_file entry
         /\ conversation_history (fst (on_load key later))
            = conversation_history later.
Proof.
  intros Hs key saved. exists (make_entry s now_stamp).
  assert (conversation_history saved !! key = Some (make_entry s now_stamp))
    as Hentry.
  { subst saved. rewrite (on_save_nonblank _ _ _ Hs).
    cbn [fst set_history conversation_history]. apply lookup_insert_eq. }
  split; [exact Hentry | split; [reflexivity | split; [reflexivity |]]].
  rewrite (on_load_present _ _ _ Hentry). cbn [fst].
  split; [reflexivity | split; [reflexivity | split; [reflexivity |]]].
  intros later Hlater. rewrite (on_load_present _ _ _ Hlater).
  by repeat split.
Qed.

Lemma save_load_roundtrip_witness :
  let s := with_notes (lit "draft") initial_session in
  let saved := fst (on_save (noon 1) (noon 1) s) in
  let other := set_current (lit "other text") (Some (lit "other.txt")) saved in
  current_context (fst (on_load (lit "notes.txt_12:00:00") other)) = lit "draft"
  /\ current_file_name (fst (on_load (lit "notes.txt_12:00:00") other))
     = Some (lit "notes.txt").
Proof.
  intros s saved other.
  destruct (save_load_roundtrip s (noon 1) (noon 1))
    as (entry & Hentry & Hcontent & Hfile & _ & _ & _ & Hlater).
  - apply truthy_strip_iff. reflexivity.
  - destruct (Hlater other Hentry) as (Htext & Hname & _).
    change (lit "notes.txt_12:00:00")
      with (context_key (current_file_name s) (noon 1)).
    split.
    + etrans; [exact Htext |]. etrans; [exact Hcontent |]. reflexivity.
    + etrans; [exact Hname |]. etrans; [exact Hfile |]. reflexivity.
Defined.

End StoreFacts.

(** ** Text extraction *)

Section ExtractorFacts.

Import Extractor Sample.

Lemma lstrip_suffix (s : str) : exists front, s = front ++ lstrip s.
Proof.
  induction s as [| c s [front IH]]; [by exists [] |]. simpl.
  destruct (is_space c).
  - exists (c :: front). simpl. by rewrite <- IH.
  - by exists [].
Qed.

(** What [strip] returns neither starts nor ends with white space. *)
Lemma strip_stripped (s : str) : Spec.stripped (strip s).
Proof.
  unfold strip. split.
  - intros c rest H. by apply lstrip_head in H.
  - intros c front H.
    destruct (lstrip_suffix (rstrip s)) as [pre Hpre].
    rewrite H in Hpre. unfold rstrip in Hpre.
    apply (f_equal (@rev N)) in Hpre.
    rewrite List.rev_involutive, app_assoc, List.rev_app_distr in Hpre.
    simpl in Hpre. by apply lstrip_head in Hpre.
Qed.

Lemma stripped_not_blank (s : str) :
  Spec.stripped s -> s <> [] -> ~ Spec.blank s.
Proof.
  intros [Hhead _] Hne Hblank. destruct s as [| c rest]; [done |].
  inversion Hblank as [| ? ? Hc _]. rewrite (Hhead c rest eq_refl) in Hc.
  discriminate.
Qed.

(** Every reader but the one of CSV files returns a stripped text, or
    fails. *)
Lemma extract_text_stripping (f : uploaded_file) :
  file_type f <> lit "csv" ->
  (exists raw, extract_text (Some f) = (Some (strip raw), []))
  \/ fst (extract_text (Some f)) = None.
Proof.
  intros Hcsv. unfold extract_text, processors. cbn [processors_get].
  repeat case_decide; try (by right); try congruence.
  - unfold read_pdf. destruct (as_pdf f); [by right | left; eauto].
  - unfold read_docx. destruct (as_docx f); [by right | left; eauto].
  - unfold read_txt. destruct (as_txt f); [by right | left; eauto].
  - unfold read_excel. destruct (as_excel f); [by right | left; eauto].
  - unfold read_excel. destruct (as_excel f); [by right | left; eauto].
Qed.

(** The caller installs a text exactly when one came back and it is not
    empty. *)
Lemma on_upload_cases (f : uploaded_file) (s : session) :
  fst (on_upload (Some f) s)
  = match fst (extract_text (Some f)) with
    | Some (c :: rest) => set_current (c :: rest) (Some (name f)) s
    | _ => s
    end.
Proof.
  unfold on_upload.
  destruct (extract_text (Some f)) as [[[| c rest] |] shown]; reflexivity.
Qed.

(** C10, as stated, fails: the reader of CSV files returns the rendering
    of the table as [pandas] prints it, leading spaces of the header line
    included. *)
Lemma read_csv_does_not_strip :
  let table := lit "   a  b" ++ nl ++ lit "0  1  2" in
  let f := upload "table.csv" (Failed (lit "not text")) (Parsed table) in
  extract_text (Some f) = (Some table, [])
  /\ strip table = lit "a  b" ++ nl ++ lit "0  1  2"
  /\ current_context (fst (on_upload (Some f) initial_session)) = table.
Proof. repeat split; vm_compute; reflexivity. Qed.

(** C10, amended.  The caller leaves the session as it was when the
    extraction returns the empty string, just as when it returns [None].
    Every reader but the one of CSV files strips its result, so that for
    those files the text installed as the current context, if any, is not
    blank; a text file holding nothing but white space installs
    nothing. *)
Theorem blank_extraction_not_installed (f : uploaded_file) (s : session) :
  (fst (extract_text (Some f)) = Some [] -> fst (on_upload (Some f) s) = s)
  /\ (fst (extract_text (Some f)) = None -> fst (on_upload (Some f) s) = s)
  /\ (file_type f <> lit "csv" ->
      (forall text, fst (extract_text (Some f)) = Some text -> Spec.stripped text)
      /\ (fst (on_upload (Some f) s) = s
          \/ exists text,
               fst (extract_text (Some f)) = Some text
               /\ ~ Spec.blank text
               /\ fst (on_upload (Some f) s) = set_current text (Some (name f)) s))
  /\ (file_type f = lit "txt" ->
      forall raw, as_txt f = Parsed raw -> Spec.blank raw ->
        extract_text (Some f) = (Some [], []) /\ on_upload (Some f) s = (s, [])).
Proof.
  split; [| split; [| split]].
  - intros H. by rewrite on_upload_cases, H.
  - intros H. by rewrite on_upload_cases, H.
  - intros Hcsv.
    assert (forall text, fst (extract_text (Some f)) = Some text ->
              Spec.stripped text) as Hstripped.
    { intros text H.
      destruct (extract_text_stripping f Hcsv) as [[raw E] | E].
      - rewrite E in H. injection H as <-. apply strip_stripped.
      - congruence. }
    split; [exact Hstripped |].
    rewrite on_upload_cases.
    destruct (fst (extract_text (Some f))) as [[| c rest] |]; try by left.
    right. exists (c :: rest). split; [reflexivity | split; [| reflexivity]].
    apply stripped_not_blank; [by apply Hstripped | done].
  - intros Htype raw Hraw Hblank.
    assert (extract_text (Some f) = (Some [], [])) as E.
    { unfold extract_text, processors. cbn [processors_get]. rewrite Htype.
      repeat case_decide;
        try match goal with
            | H : lit _ = lit _ |- _ => by vm_compute in H
            | H : lit _ <> lit _ |- _ => by destruct H
            end.
      unfold read_txt. rewrite Hraw.
      apply strip_nil_iff in Hblank. by rewrite Hblank. }
    split; [exact E |]. unfold on_upload. by rewrite E.
Qed.

Lemma blank_extraction_not_installed_witness :
  let s := with_notes (lit "draft") initial_session in
  let blank_file :=
    upload "blank.txt" (Parsed (lit "  " ++ nl ++ lit " ")) (Failed (lit "no table")) in
  let text_file :=
    upload "memo.TXT" (Parsed (lit " memo " ++ nl)) (Failed (lit "no table")) in
  on_upload (Some blank_file) s = (s, [])
  /\ Spec.stripped (lit "memo")
  /\ fst (on_upload (Some (upload "scan.pdf" (Failed (lit "no text"))
                             (Failed (lit "no table")))) s) = s.
Proof.
  intros s blank_file text_file.
  destruct (blank_extraction_not_installed blank_file s) as (_ & _ & _ & Htxt).
  destruct (blank_extraction_not_installed text_file s) as (_ & _ & Hstrip & _).
  destruct (blank_extraction_not_installed
              (upload "scan.pdf" (Failed (lit "no text")) (Failed (lit "no table"))) s)
    as (_ & Hnone & _ & _).
  split; [| split].
  - apply (Htxt eq_refl (lit "  " ++ nl ++ lit " ") eq_refl).
    vm_compute. repeat constructor.
  - apply (proj1 (Hstrip ltac:(vm_compute; discriminate))). reflexivity.
  - apply Hnone. reflexivity.
Defined.

End ExtractorFacts.

(** ** Runs of the script *)

Section Runs.

Local Open Scope Q_scope.

Import Generator Store Extractor Sample.

Example strip_run : strip (lit "  a b " ++ nl) = lit "a b".
Proof. reflexivity. Qed.

Example file_type_run :
  file_type (upload "report.v2.TXT" (Failed []) (Failed [])) = lit "txt".
Proof. reflexivity. Qed.

Example unsupported_type_run :
  extract_text (Some (upload "notes.md" (Parsed (lit "text")) (Failed [])))
  = (None, [UiError (lit "Unsupported file type: md")]).
Proof. reflexivity. Qed.

Example size_label_run :
  kb_one_decimal 256 = lit "0.2" /\ kb_one_decimal 768 = lit "0.8"
  /\ kb_one_decimal 10000 = lit "9.8".
Proof. repeat split; reflexivity. Qed.

Example entry_run :
  make_entry (with_notes (text_of_length 2048) initial_session) (noon 7)
  = {| sc_file := Some (lit "notes.txt");
       sc_content := text_of_length 2048;
       sc_timestamp := lit "2024-05-07 12:00:00";
       sc_size := lit "2.0 KB" |}.
Proof. vm_compute. reflexivity. Qed.

Example quota_words_run :
  is_quota_error (lit "HTTP 429 Too Many Requests") = true
  /\ is_quota_error (lit "Your QUOTA is used up") = true
  /\ is_quota_error (lit "Limit Exceeded") = true
  /\ is_quota_error (lit "Connection reset") = false.
Proof. repeat split; reflexivity. Qed.

(** A text of 10000 characters, 5 and 3 questions, no topic: one
    generation is counted. *)
Example generation_run :
  let s := with_notes (text_of_length 10000)
             {| conversation_history := ∅; current_context := [];
                current_file_name := None; api_key := Some (lit "key");
                generation_count := 0; last_request_time := 0;
                quota_reset_time := None |} in
  let s' := fst (on_generate echo_client (clock_at 1000) 5 3 (lit "Medium") [] s) in
  generation_count s' = 1%Z /\ last_request_time s' = 1000 + 1.
Proof. split; vm_compute; reflexivity. Qed.

(** Two attempts one second apart: the second is told to wait. *)
Example two_attempts_run :
  let first :=
    generate_questions echo_client (clock_at 1000) (lit "key") (lit "text")
      5 3 (lit "Medium") (lit "All topics") initial_session in
  generate_questions echo_client (clock_at (1000 + 2)) (lit "key") (lit "text")
    5 3 (lit "Medium") (lit "All topics") (snd (fst first))
  = (None, snd (fst first),
     [UiWarning ([9203%N] ++ lit " Wait 2s before next request.")]).
Proof. vm_compute. reflexivity. Qed.

(** A quota error, then an attempt at the same moment: locked for 120
    seconds. *)
Example quota_then_retry_run :
  let failed :=
    generate_questions (failing_client (lit "429 quota")) (clock_at 1000)
      (lit "key") (lit "text") 5 3 (lit "Medium") (lit "All topics")
      initial_session in
  snd (generate_questions echo_client (clock_at (1000 + 2)) (lit "key")
         (lit "text") 5 3 (lit "Medium") (lit "All topics") (snd (fst failed)))
  = [UiWarning ([9203%N] ++ lit " Rate limited. Wait 120s.")].
Proof. vm_compute. reflexivity. Qed.

End Runs.

(** * Further properties *)

(** ** The gate, again *)

Section GateMore.

Local Open Scope Q_scope.

Import Gate.

(** A refusal always comes with a message. *)
Lemma check_refused_message (now : Q) (s : session) :
  fst (fst (check_quota_limits now s)) = false ->
  exists msg, fst (check_quota_limits now s) = (false, Some msg).
Proof.
  unfold check_quota_limits, spacing_check.
  destruct (quota_reset_time s) as [reset |].
  - destruct (truthy_opt_time (Some reset) && Qlt_bool now reset); [eauto |].
    destruct (truthy_opt_time (Some reset) && Qle_bool reset now); cbn [fst];
      destruct (Qlt_bool _ 3); cbn [fst]; eauto; discriminate.
  - destruct (Qlt_bool _ 3); cbn [fst]; eauto; discriminate.
Qed.

Lemma check_repeated (now : Q) (s : session) :
  check_quota_limits now (snd (check_quota_limits now s))
  = check_quota_limits now s.
Proof.
  unfold check_quota_limits.
  destruct (quota_reset_time s) as [reset |] eqn:E.
  - destruct (truthy_opt_time (Some reset) && Qlt_bool now reset) eqn:L.
    + cbn [snd]. by rewrite E, L.
    + destruct (truthy_opt_time (Some reset) && Qle_bool reset now) eqn:G;
        unfold spacing_check; cbn [last_request_time set_quota_reset_time];
        destruct (Qlt_bool (now - last_request_time s) 3) eqn:W; cbn [snd];
        cbn [quota_reset_time last_request_time set_quota_reset_time];
        rewrite ?E, ?L, ?G, ?W; reflexivity.
  - unfold spacing_check.
    destruct (Qlt_bool (now - last_request_time s) 3) eqn:W; cbn [snd];
      by rewrite E, W.
Qed.

(** Checking twice at one instant: the second check answers as the first
    and finds nothing more to change, so the clearing of an elapsed lockout
    is the only thing a check ever does to the session. *)
Theorem check_twice (now : Q) (s : session) :
  check_quota_limits now (snd (check_quota_limits now s))
  = check_quota_limits now s
  /\ (snd (check_quota_limits now s) = s
      \/ (exists reset, quota_reset_time s = Some reset /\ reset <= now)
         /\ snd (check_quota_limits now s) = set_quota_reset_time None s).
Proof.
  split; [apply check_repeated |].
  unfold check_quota_limits, spacing_check.
  destruct (quota_reset_time s) as [reset |].
  - destruct (truthy_opt_time (Some reset) && Qlt_bool now reset); [by left |].
    destruct (truthy_opt_time (Some reset) && Qle_bool reset now) eqn:G;
      cbn [last_request_time set_quota_reset_time].
    + right. apply andb_true_iff in G as [_ G]. apply Qle_bool_iff in G.
      split; [by exists reset |].
      destruct (Qlt_bool (now - last_request_time s) 3); reflexivity.
    + left. destruct (Qlt_bool (now - last_request_time s) 3); reflexivity.
  - left. destruct (Qlt_bool (now - last_request_time s) 3); reflexivity.
Qed.

Lemma Qfloor_between (x : Q) (lo hi : Z) :
  inject_Z lo <= x -> x <= inject_Z hi -> (lo <= Qfloor x <= hi)%Z.
Proof.
  intros Hlo Hhi. split.
  - rewrite <- (Qfloor_Z lo). by apply Qfloor_resp_le.
  - rewrite <- (Qfloor_Z hi). by apply Qfloor_resp_le.
Qed.

(** The seconds a refusal tells the user to wait are whole numbers within
    the two periods: at most 120 under a lockout set no more than 120
    seconds ahead, at most 3 under the spacing rule when the clock has not
    gone back behind the last request. *)
Theorem wait_seconds_bounds (s : session) (now : Q) :
  (forall reset,
     quota_reset_time s = Some reset ->
     0 <= now -> now < reset -> reset <= now + 120 ->
     exists n, (0 <= n <= 120)%Z
       /\ fst (check_quota_limits now s)
          = (false, Some (lit "Rate limited. Wait " ++ str_of_int n ++ lit "s.")))
  /\ (lockout_active now s = false ->
      last_request_time s <= now -> now < last_request_time s + 3 ->
      exists n, (0 <= n <= 3)%Z
        /\ fst (check_quota_limits now s)
           = (false, Some (lit "Wait " ++ str_of_int n
                             ++ lit "s before next request."))).
Proof.
  split.
  - intros reset E Hnow Hlt Hnear.
    assert (~ reset == 0) as Hnz by lra.
    rewrite (check_running_lockout _ _ _ E Hnz Hlt). cbn [fst].
    exists (Qfloor (reset - now)). split.
    + apply Qfloor_between; unfold inject_Z; lra.
    + unfold locked_message. rewrite py_int_floor by lra. reflexivity.
  - intros Hfree Hback Hsoon.
    rewrite (check_without_lockout _ _ Hfree).
    rewrite spacing_check_refused by exact Hsoon. cbn [fst].
    exists (Qfloor (3 - (now - last_request_time s))). split.
    + apply Qfloor_between; unfold inject_Z; lra.
    + unfold wait_message. rewrite py_int_floor by lra. reflexivity.
Qed.

Lemma wait_seconds_bounds_witness :
  (exists n, (0 <= n <= 120)%Z
     /\ fst (check_quota_limits 1050 (record_lockout 1000 initial_session))
        = (false, Some (lit "Rate limited. Wait " ++ str_of_int n ++ lit "s.")))
  /\ (exists n, (0 <= n <= 3)%Z
      /\ fst (check_quota_limits 1001 (set_last_request_time 1000 initial_session))
         = (false, Some (lit "Wait " ++ str_of_int n
                           ++ lit "s before next request."))).
Proof.
  split.
  - apply (proj1 (wait_seconds_bounds (record_lockout 1000 initial_session) 1050)
             (1000 + 120) eq_refl); [discriminate | reflexivity | discriminate].
  - apply (proj2 (wait_seconds_bounds
                    (set_last_request_time 1000 initial_session) 1001) eq_refl);
      [discriminate | reflexivity].
Defined.

End GateMore.

(** ** The generator, again *)

Section GeneratorMore.

Local Open Scope Q_scope.

Import Generator Sample.

Lemma first_model_some (c : client) (names : list str) (model : str) :
  first_model c names = Some model <->
  exists earlier later,
    names = earlier ++ model :: later
    /\ new_model c model = None
    /\ Forall (fun n => new_model c n <> None) earlier.
Proof.
  induction names as [| n names IH]; simpl.
  - split; [discriminate |]. intros (earlier & later & H & _).
    by destruct earlier.
  - destruct (new_model c n) as [msg |] eqn:E.
    + rewrite IH. split.
      * intros (earlier & later & -> & Hm & Hall).
        exists (n :: earlier), later. repeat split; [exact Hm |].
        constructor; [congruence | exact Hall].
      * intros (earlier & later & H & Hm & Hall).
        destruct earlier as [| e earlier]; simpl in H; injection H as -> ->.
        -- congruence.
        -- inversion Hall. by exists earlier, later.
    + split.
      * intros [= ->]. exists [], names. by repeat split.
      * intros (earlier & later & H & Hm & Hall).
        destruct earlier as [| e earlier]; simpl in H; injection H as -> ->.
        -- reflexivity.
        -- inversion Hall. congruence.
Qed.

Lemma first_model_none (c : client) (names : list str) :
  first_model c names = None <-> Forall (fun n => new_model c n <> None) names.
Proof.
  induction names as [| n names IH]; simpl.
  - split; [constructor | reflexivity].
  - destruct (new_model c n) as [msg |] eqn:E.
    + rewrite IH. split; [constructor; congruence | by inversion 1].
    + split; [discriminate | inversion 1; congruence].
Qed.

(** The model is chosen in the order of preference: the one returned could
    be constructed and every name before it in the list could not; no
    model is returned only when the client cannot be configured or none of
    the three names can be constructed, and the error shown says which. *)
Theorem model_fallback_order (c : client) (key : str) :
  (forall msg, configure c key = Some msg ->
     get_generative_model c key
     = (None, [UiError (lit "Model initialization error: " ++ msg)]))
  /\ (configure c key = None ->
      (forall model,
         fst (get_generative_model c key) = Some model <->
         exists earlier later,
           model_options = earlier ++ model :: later
           /\ new_model c model = None
           /\ Forall (fun n => new_model c n <> None) earlier)
      /\ (Forall (fun n => new_model c n <> None) model_options ->
          get_generative_model c key
          = (None, [UiError (lit "Model initialization error: "
                               ++ lit "No compatible Gemini model found")]))).
Proof.
  unfold get_generative_model. split.
  - by intros msg ->.
  - intros ->. split.
    + intros model. rewrite <- first_model_some.
      destruct (first_model c model_options); simpl; split; congruence.
    + intros H. apply first_model_none in H. by rewrite H.
Qed.

Lemma model_fallback_order_witness :
  fst (get_generative_model pro_only_client (lit "key"))
  = Some (lit "gemini-1.5-pro")
  /\ get_generative_model modelless_client (lit "key")
     = (None, [UiError (lit "Model initialization error: "
                          ++ lit "No compatible Gemini model found")]).
Proof.
  destruct (model_fallback_order pro_only_client (lit "key")) as [_ Hpro].
  destruct (model_fallback_order modelless_client (lit "key")) as [_ Hnone].
  split.
  - apply (proj1 (Hpro eq_refl)).
    exists [lit "gemini-2.0-flash"; lit "gemini-1.5-flash"], [].
    split; [reflexivity | split; [reflexivity |]].
    repeat constructor; discriminate.
  - apply (proj2 (Hnone eq_refl)). repeat constructor; discriminate.
Defined.

(** An attempt the gate refuses neither configures the client nor calls
    the model: whatever the client and the arguments, it returns nothing,
    shows one warning and leaves the time of the last request alone, so
    that pressing the button during the wait does not prolong it. *)
Theorem refused_attempt_calls_nothing (c c' : client) (k : clock)
    (key key' content content' : str) (mcq mcq' short short' : Z)
    (difficulty difficulty' topic topic' : str) (s : session) :
  fst (fst (Gate.check_quota_limits (at_check k) s)) = false ->
  let attempt := generate_questions c k key content mcq short difficulty topic s in
  attempt = generate_questions c' k key' content' mcq' short' difficulty' topic' s
  /\ fst (fst attempt) = None
  /\ last_request_time (snd (fst attempt)) = last_request_time s
  /\ exists msg, snd attempt = [UiWarning ([9203%N] ++ lit " " ++ msg)].
Proof.
  intros H attempt. subst attempt.
  destruct (check_refused_message _ _ H) as [msg Hmsg].
  rewrite !(generate_refused _ _ _ _ _ _ _ _ _ _ Hmsg). cbn [fst snd].
  split; [reflexivity | split; [reflexivity | split; [| by exists msg]]].
  destruct (check_state (at_check k) s) as [-> | ->]; reflexivity.
Qed.

Lemma refused_attempt_calls_nothing_witness :
  let s := set_last_request_time 999 initial_session in
  generate_questions echo_client (clock_at 1000) (lit "key") (lit "text") 5 3
    (lit "Easy") (lit "All topics") s
  = generate_questions (failing_client (lit "429")) (clock_at 1000) (lit "other")
      (lit "another text") 7 1 (lit "Hard") (lit "Chapter 5") s.
Proof.
  intros s.
  apply (refused_attempt_calls_nothing echo_client (failing_client (lit "429"))
           (clock_at 1000) (lit "key") (lit "other") (lit "text")
           (lit "another text") 5 7 3 1 (lit "Easy") (lit "Hard")
           (lit "All topics") (lit "Chapter 5") s).
  reflexivity.
Defined.

Lemma generate_without_model (c : client) (k : clock)
    (key content : str) (mcq short : Z) (difficulty topic : str) (s : session) :
  fst (fst (Gate.check_quota_limits (at_check k) s)) = true ->
  fst (get_generative_model c key) = None ->
  generate_questions c k key content mcq short difficulty topic s
  = (None, snd (Gate.check_quota_limits (at_check k) s),
     snd (get_generative_model c key)).
Proof.
  intros Hpass Hnone. unfold generate_questions.
  destruct (Gate.check_quota_limits (at_check k) s) as [[ok msg] s1].
  cbn [fst snd] in *. subst ok. cbn [negb].
  destruct (get_generative_model c key) as [[model |] shown];
    [discriminate | reflexivity].
Qed.

(** When no model can be obtained the attempt stops before the external
    call: nothing is returned, the time of the last request is not set,
    and the same attempt made again at once still passes the gate. *)
Theorem model_failure_records_nothing (c : client) (k : clock)
    (key content : str) (mcq short : Z) (difficulty topic : str) (s : session) :
  fst (fst (Gate.check_quota_limits (at_check k) s)) = true ->
  fst (get_generative_model c key) = None ->
  let attempt := generate_questions c k key content mcq short difficulty topic s in
  attempt
  = (None, snd (Gate.check_quota_limits (at_check k) s),
     snd (get_generative_model c key))
  /\ last_request_time (snd (fst attempt)) = last_request_time s
  /\ fst (fst (Gate.check_quota_limits (at_check k) (snd (fst attempt)))) = true.
Proof.
  intros Hpass Hnone attempt.
  assert (attempt
          = (None, snd (Gate.check_quota_limits (at_check k) s),
             snd (get_generative_model c key))) as E.
  { subst attempt. by apply generate_without_model. }
  rewrite E. cbn [fst snd]. split; [reflexivity | split].
  - destruct (check_state (at_check k) s) as [-> | ->]; reflexivity.
  - by rewrite check_repeated.
Qed.

Lemma model_failure_records_nothing_witness :
  generate_questions modelless_client (clock_at 1000) (lit "key") (lit "text")
    5 3 (lit "Easy") (lit "All topics") initial_session
  = (None, initial_session,
     [UiError (lit "Model initialization error: "
                 ++ lit "No compatible Gemini model found")]).
Proof.
  apply (model_failure_records_nothing modelless_client (clock_at 1000)
           (lit "key") (lit "text") 5 3 (lit "Easy") (lit "All topics")
           initial_session eq_refl eq_refl).
Defined.

(** A lockout ends by itself: after an attempt that met a quota error, an
    attempt made 120 seconds or more after the error passes the gate, and
    the check clears the lockout.  The clock is taken not to run backwards
    between the call and its failure. *)
Theorem lockout_expires (c : client) (k : clock) (key content : str)
    (mcq short : Z) (difficulty topic : str) (s : session)
    (model error_str : str) (now : Q) :
  fst (fst (Gate.check_quota_limits (at_check k) s)) = true ->
  fst (get_generative_model c key) = Some model ->
  generate_content c model (build_prompt content mcq short difficulty topic)
  = Raised error_str ->
  is_quota_error error_str = true ->
  0 <= at_dispatch k -> at_dispatch k <= at_error k ->
  at_error k + 120 <= now ->
  let s' :=
    snd (fst (generate_questions c k key content mcq short difficulty topic s)) in
  quota_reset_time s' = Some (at_error k + 120)
  /\ fst (Gate.check_quota_limits now s') = (true, None)
  /\ quota_reset_time (snd (Gate.check_quota_limits now s')) = None.
Proof.
  intros Hpass Hmodel Hcall Hq Hpos Hmono Hlate s'.
  pose proof (generate_dispatched c k key content mcq short difficulty topic s
                model Hpass Hmodel) as Hrun.
  cbv zeta in Hrun. rewrite Hcall, Hq in Hrun.
  subst s'. rewrite Hrun. cbn [fst snd].
  set (s2 := set_last_request_time (at_dispatch k) _).
  split; [reflexivity |].
  rewrite (check_elapsed_lockout now (at_error k + 120)); [| reflexivity | lra | exact Hlate].
  rewrite spacing_check_passes by (cbn [last_request_time set_quota_reset_time s2 set_last_request_time]; lra).
  split; reflexivity.
Qed.

Lemma lockout_expires_witness :
  let s' :=
    snd (fst (generate_questions (failing_client (lit "quota exceeded"))
                (clock_at 1000) (lit "key") (lit "text") 5 3 (lit "Easy")
                (lit "All topics") initial_session)) in
  fst (Gate.check_quota_limits (1000 + 2 + 120) s') = (true, None).
Proof.
  intros s'.
  apply (lockout_expires (failing_client (lit "quota exceeded")) (clock_at 1000)
           (lit "key") (lit "text") 5 3 (lit "Easy") (lit "All topics")
           initial_session (lit "gemini-2.0-flash") (lit "quota exceeded")
           (1000 + 2 + 120) eq_refl eq_refl eq_refl eq_refl);
    discriminate.
Defined.

(** The text put in the prompt is bounded whatever the size of the source:
    a source of more than 7000 characters always contributes 7037 (the
    7000 kept and the 37 of the marker), a shorter one its own length. *)
Theorem embedded_content_bounded (content : str) :
  len (truncate_content content)
  = (if (7000 <? len content)%Z then 7037 else len content)%Z
  /\ (len (truncate_content content) <= 7037)%Z.
Proof.
  assert (len (truncate_content content)
          = (if (7000 <? len content)%Z then 7037 else len content)%Z) as E.
  { unfold truncate_content, max_chars.
    destruct (7000 <? len content)%Z eqn:L.
    - apply Z.ltb_lt in L.
      destruct (slice_to_long 7000 content) as [_ Hlen]; [lia |].
      unfold len in *. rewrite List.length_app, Nat2Z.inj_add, Hlen.
      reflexivity.
    - apply Z.ltb_ge in L. by rewrite slice_to_short. }
  split; [exact E |]. rewrite E.
  destruct (7000 <? len content)%Z eqn:L; [discriminate |].
  apply Z.ltb_ge in L. lia.
Qed.

(** The counter of generations goes up by one or stays: it goes up only
    when the model answered with a text that is not empty. *)
Theorem generation_counted (c : client) (k : clock) (mcq short : Z)
    (difficulty topic : str) (s : session) :
  let s' := fst (on_generate c k mcq short difficulty topic s) in
  (generation_count s' = generation_count s
   \/ generation_count s' = generation_count s + 1)%Z
  /\ (generation_count s' <> generation_count s ->
      exists key model text,
        api_key s = Some key
        /\ fst (get_generative_model c key) = Some model
        /\ generate_content c model
             (build_prompt (current_context s) mcq short difficulty
                (if truthy_str topic then topic else lit "All topics"))
           = Responded text
        /\ text <> []
        /\ last_request_time s' = at_dispatch k).
Proof.
  intros s'. subst s'. unfold on_generate.
  destruct (api_key s) as [key |] eqn:K; [| split; [by left | done]].
  destruct (truthy_str key && truthy_str (strip (current_context s)));
    [| split; [by left | done]].
  set (topic' := if truthy_str topic then topic else lit "All topics").
  destruct (fst (fst (Gate.check_quota_limits (at_check k) s))) eqn:Hpass.
  - assert (generation_count (snd (Gate.check_quota_limits (at_check k) s))
            = generation_count s) as Hcount
      by (destruct (check_state (at_check k) s) as [-> | ->]; reflexivity).
    destruct (fst (get_generative_model c key)) as [model |] eqn:Hmodel.
    + rewrite (generate_dispatched c k key (current_context s) mcq short
                 difficulty topic' s model Hpass Hmodel).
      cbv zeta.
      destruct (generate_content c model _) as [text | | error_str] eqn:Hcall.
      * destruct text as [| ch text]; cbn [truthy_opt_str truthy_str fst];
          cbn [generation_count set_generation_count set_last_request_time];
          rewrite Hcount.
        -- split; [by left | done].
        -- split; [by right |]. intros _.
           exists key, model, (ch :: text). by repeat split.
      * cbn [truthy_opt_str fst generation_count set_last_request_time].
        rewrite Hcount. split; [by left | done].
      * destruct (is_quota_error error_str);
          cbn [truthy_opt_str fst generation_count set_last_request_time
               set_quota_reset_time];
          rewrite Hcount; (split; [by left | done]).
    + rewrite (generate_without_model c k key (current_context s) mcq short
                 difficulty topic' s Hpass Hmodel).
      cbn [truthy_opt_str fst]. rewrite Hcount. split; [by left | done].
  - destruct (check_refused_message _ _ Hpass) as [msg Hmsg].
    rewrite (generate_refused c k key (current_context s) mcq short
               difficulty topic' s msg Hmsg).
    cbn [truthy_opt_str fst].
    split; [left | intros H; exfalso; apply H];
      destruct (check_state (at_check k) s) as [-> | ->]; reflexivity.
Qed.

End GeneratorMore.

Section GeneratorMoreRuns.

Import Generator Sample.

Lemma generation_counted_witness :
  let s := keyed_session (lit "text") in
  exists text,
    generate_content echo_client (lit "gemini-2.0-flash")
      (build_prompt (lit "text") 5 3 (lit "Easy") (lit "All topics"))
    = Responded text
    /\ text <> [].
Proof.
  intros s.
  destruct (generation_counted echo_client (clock_at 1000) 5 3
              (lit "Easy") [] s) as [_ H].
  destruct H as (key & model & text & Hkey & Hmodel & Hcall & Hne & _).
  - vm_compute. discriminate.
  - injection Hkey as <-. injection Hmodel as <-. by exists text.
Defined.

End GeneratorMoreRuns.

(** ** The saved contexts, again *)

Section StoreMore.

Import Store Sample.

(** A save is refused, with a warning and no change, exactly when the
    current context is empty or holds only white space. *)
Theorem save_refused_iff_blank (now_key now_stamp : datetime) (s : session) :
  Spec.blank (current_context s) <->
  on_save now_key now_stamp s
  = (s, [UiWarning ([9888%N; 65039%N] ++ lit " No content to save")]).
Proof.
  unfold on_save.
  destruct (truthy_str (strip (current_context s))) eqn:T.
  - apply truthy_strip_iff in T. split; [contradiction | discriminate].
  - split; [reflexivity | intros _].
    apply strip_nil_iff. by destruct (strip (current_context s)).
Qed.

(** Saves under different file names never share a key, whatever the two
    times.  (The name is compared as it is printed: a missing name prints
    as [None].) *)
Theorem keys_of_different_files_differ (file1 file2 : option str)
    (d1 d2 : datetime) :
  fmt_opt file1 <> fmt_opt file2 ->
  context_key file1 d1 <> context_key file2 d2.
Proof.
  intros Hne H. apply Hne. unfold context_key in H.
  rewrite !app_assoc in H.
  apply app_inj_2 in H as [H _]; [| reflexivity].
  by apply app_inj_2 in H as [H _].
Qed.

Lemma keys_of_different_files_differ_witness :
  context_key (Some (lit "notes.txt")) (noon 1)
  <> context_key (Some (lit "report.pdf")) (noon 1).
Proof.
  apply keys_of_different_files_differ. vm_compute. discriminate.
Defined.

(** A save under a key already in use replaces that entry: the number of
    saved contexts stays, and what was filed there before is gone. *)
Theorem save_replaces_same_key (s : session) (now_key now_stamp : datetime)
    (old : saved_context) :
  ~ Spec.blank (current_context s) ->
  let key := context_key (current_file_name s) now_key in
  conversation_history s !! key = Some old ->
  let saved := fst (on_save now_key now_stamp s) in
  size (conversation_history saved) = size (conversation_history s)
  /\ conversation_history saved !! key = Some (make_entry s now_stamp)
  /\ forall other, other <> key ->
       conversation_history saved !! other = conversation_history s !! other.
Proof.
  intros Hs key Hold saved. subst saved.
  rewrite (on_save_nonblank _ _ _ Hs). cbn [fst set_history conversation_history].
  fold key. split; [| split].
  - rewrite <- (insert_delete_id (conversation_history s) key old Hold) at 2.
    rewrite <- insert_delete_eq.
    rewrite !map_size_insert_None by apply lookup_delete_eq. reflexivity.
  - apply lookup_insert_eq.
  - intros other Hne. by apply lookup_insert_ne.
Qed.

Lemma save_replaces_same_key_witness :
  let s1 := with_notes (lit "first draft") initial_session in
  let saved1 := fst (on_save (noon 1) (noon 1) s1) in
  let s2 := with_notes (lit "second draft") saved1 in
  size (conversation_history (fst (on_save (noon 2) (noon 2) s2)))
  = size (conversation_history s2).
Proof.
  intros s1 saved1 s2.
  apply (save_replaces_same_key s2 (noon 2) (noon 2) (make_entry s1 (noon 1))).
  - apply truthy_strip_iff. reflexivity.
  - vm_compute. reflexivity.
Defined.

(** Saving under a fresh key and then pressing "Delete" for that key gives
    back the session as it was. *)
Theorem save_then_delete (s : session) (now_key now_stamp : datetime) :
  ~ Spec.blank (current_context s) ->
  let key := context_key (current_file_name s) now_key in
  conversation_history s !! key = None ->
  fst (on_delete key (fst (on_save now_key now_stamp s))) = s.
Proof.
  intros Hs key Hfresh.
  rewrite (on_save_nonblank _ _ _ Hs). cbn [fst]. fold key.
  unfold on_delete, saved_contexts_panel.
  rewrite contexts_loop_delete_present.
  - cbn [fst set_history conversation_history].
    rewrite delete_insert_id by exact Hfresh. by destruct s.
  - apply key_in_items. cbn [set_history conversation_history].
    rewrite lookup_insert_eq. eauto.
Qed.

Lemma save_then_delete_witness :
  let s := with_notes (lit "draft") initial_session in
  fst (on_delete (lit "notes.txt_12:00:00") (fst (on_save (noon 1) (noon 1) s)))
  = s.
Proof.
  intros s.
  apply (save_then_delete s (noon 1) (noon 1)).
  - apply truthy_strip_iff. reflexivity.
  - reflexivity.
Defined.

Lemma contexts_loop_load_absent (key : str)
    (items : list (str * saved_context)) (s : session) :
  key ∉ items.*1 -> contexts_loop (load_button key) items s = (s, []).
Proof.
  induction items as [| [k data] rest IH]; [reflexivity |].
  rewrite fmap_cons, not_elem_of_cons. cbn [fst]. intros [Hne Hrest].
  cbn [contexts_loop].
  destruct (decide (load_button key = load_button k)) as [E | _].
  { apply load_button_inj in E. contradiction. }
  destruct (decide (load_button key = del_button k)) as [E | _].
  { by apply load_del_buttons_differ in E. }
  by apply IH.
Qed.

(** "Load" changes the current text and file name and nothing else; for a
    key that is not among the saved contexts it changes nothing at all. *)
Theorem load_frame (key : str) (s : session) :
  let s' := fst (on_load key s) in
  conversation_history s' = conversation_history s
  /\ api_key s' = api_key s
  /\ generation_count s' = generation_count s
  /\ last_request_time s' = last_request_time s
  /\ quota_reset_time s' = quota_reset_time s
  /\ (conversation_history s !! key = None -> on_load key s = (s, [])).
Proof.
  intros s'. subst s'.
  destruct (conversation_history s !! key) as [entry |] eqn:E.
  - rewrite (on_load_present _ _ _ E). by repeat split.
  - assert (on_load key s = (s, [])) as ->.
    { unfold on_load, saved_contexts_panel. apply contexts_loop_load_absent.
      rewrite key_in_items, E. by intros [? ?]. }
    by repeat split.
Qed.

Lemma load_frame_witness :
  let s := with_notes (lit "draft") initial_session in
  on_load (lit "notes.txt_12:00:00") s = (s, []).
Proof.
  intros s. apply (load_frame (lit "notes.txt_12:00:00") s). reflexivity.
Defined.

End StoreMore.

(** ** Text extraction, again *)

Section ExtractorMore.

Import Extractor Sample.

Lemma split_on_cons (sep : N) (s : str) :
  exists part parts, split_on sep s = part :: parts.
Proof.
  destruct s as [| c s]; simpl; [eauto |].
  destruct (c =? sep)%N; [eauto |].
  destruct (split_on sep s); eauto.
Qed.

Lemma split_on_app (sep : N) (base rest : str) :
  split_on sep (base ++ sep :: rest) = split_on sep base ++ split_on sep rest.
Proof.
  induction base as [| c base IH]; simpl.
  - by rewrite N.eqb_refl.
  - destruct (c =? sep)%N; [by rewrite IH |].
    rewrite IH. by destruct (split_on_cons sep base) as (part & parts & ->).
Qed.

Lemma split_on_whole (sep : N) (s : str) :
  sep ∉ s -> split_on sep s = [s].
Proof.
  induction s as [| c s IH]; [reflexivity |]. rewrite not_elem_of_cons.
  intros [Hne Hs]. simpl.
  destruct (c =? sep)%N eqn:E; [apply N.eqb_eq in E; congruence |].
  by rewrite IH.
Qed.

(** The type of a file is what follows the last dot of its name, in lower
    case; a name with no dot is its own type. *)
Theorem file_type_of_extension (f : uploaded_file) :
  (forall base ext, name f = base ++ 46%N :: ext -> 46%N ∉ ext ->
     file_type f = lower ext)
  /\ (46%N ∉ name f -> file_type f = lower (name f)).
Proof.
  unfold file_type. split.
  - intros base ext -> Hext.
    by rewrite split_on_app, (split_on_whole _ _ Hext), List.last_last.
  - intros H. by rewrite (split_on_whole _ _ H).
Qed.

Lemma file_type_of_extension_witness :
  file_type (upload "final.report.PDF" (Failed []) (Failed [])) = lit "pdf"
  /\ file_type (upload "README" (Failed []) (Failed [])) = lit "readme".
Proof.
  split.
  - apply (proj1 (file_type_of_extension
                    (upload "final.report.PDF" (Failed []) (Failed [])))
             (lit "final.report") (lit "PDF")); [reflexivity |].
    vm_compute.
    repeat (apply not_elem_of_cons; split; [discriminate |]). apply not_elem_of_nil.
  - apply (proj2 (file_type_of_extension (upload "README" (Failed []) (Failed [])))).
    vm_compute.
    repeat (apply not_elem_of_cons; split; [discriminate |]). apply not_elem_of_nil.
Defined.

(** A file whose type is none of the six known ones is turned down with a
    message that names the type; no reader looks at it and the session
    stays as it was. *)
Theorem unsupported_type_rejected (f : uploaded_file) (s : session) :
  file_type f ∉ [lit "pdf"; lit "docx"; lit "txt"; lit "csv"; lit "xls"; lit "xlsx"] ->
  on_upload (Some f) s
  = (s, [UiError (lit "Unsupported file type: " ++ file_type f)]).
Proof.
  intros H. unfold on_upload, extract_text, processors. cbn [processors_get].
  repeat case_decide;
    try (exfalso; apply H; subst;
         match goal with E : _ = file_type f |- _ => rewrite <- E end;
         set_solver).
  reflexivity.
Qed.

Lemma unsupported_type_rejected_witness :
  on_upload (Some (upload "notes.md" (Parsed (lit "text")) (Failed []))) initial_session
  = (initial_session, [UiError (lit "Unsupported file type: " ++ lit "md")]).
Proof.
  apply (unsupported_type_rejected
           (upload "notes.md" (Parsed (lit "text")) (Failed [])) initial_session).
  vm_compute.
  repeat (apply not_elem_of_cons; split; [discriminate |]). apply not_elem_of_nil.
Defined.

Lemma dispatch (f : uploaded_file) (kind : str) (reader : uploaded_file -> reader_result) :
  processors_get processors kind = Some reader ->
  file_type f = kind ->
  extract_text (Some f) = reader f.
Proof. intros H E. unfold extract_text. by rewrite E, H. Qed.

(** When the parser of the file's type raises an exception, the message is
    shown under the name of the format and the session stays as it was:
    the context of an earlier upload is kept. *)
Theorem reader_failure_keeps_context (f : uploaded_file) (s : session) (msg : str) :
  (file_type f = lit "pdf" -> as_pdf f = Failed msg ->
     on_upload (Some f) s = (s, [UiError (lit "Error reading PDF: " ++ msg)]))
  /\ (file_type f = lit "docx" -> as_docx f = Failed msg ->
      on_upload (Some f) s = (s, [UiError (lit "Error reading DOCX: " ++ msg)]))
  /\ (file_type f = lit "txt" -> as_txt f = Failed msg ->
      on_upload (Some f) s = (s, [UiError (lit "Error reading TXT: " ++ msg)]))
  /\ (file_type f = lit "csv" -> as_csv f = Failed msg ->
      on_upload (Some f) s = (s, [UiError (lit "Error reading CSV: " ++ msg)]))
  /\ (file_type f = lit "xls" \/ file_type f = lit "xlsx" ->
      as_excel f = Failed msg ->
      on_upload (Some f) s = (s, [UiError (lit "Error reading EXCEL: " ++ msg)])).
Proof.
  repeat split.
  - intros T E. unfold on_upload.
    rewrite (dispatch f (lit "pdf") read_pdf eq_refl T). unfold read_pdf. by rewrite E.
  - intros T E. unfold on_upload.
    rewrite (dispatch f (lit "docx") read_docx eq_refl T). unfold read_docx. by rewrite E.
  - intros T E. unfold on_upload.
    rewrite (dispatch f (lit "txt") read_txt eq_refl T). unfold read_txt. by rewrite E.
  - intros T E. unfold on_upload.
    rewrite (dispatch f (lit "csv") read_csv eq_refl T). unfold read_csv. by rewrite E.
  - intros [T | T] E; unfold on_upload.
    + rewrite (dispatch f (lit "xls") read_excel eq_refl T). unfold read_excel. by rewrite E.
    + rewrite (dispatch f (lit "xlsx") read_excel eq_refl T). unfold read_excel. by rewrite E.
Qed.

Lemma reader_failure_keeps_context_witness :
  let s := with_notes (lit "draft") initial_session in
  on_upload (Some (upload "broken.txt" (Failed (lit "invalid start byte"))
                     (Failed []))) s
  = (s, [UiError (lit "Error reading TXT: " ++ lit "invalid start byte")]).
Proof.
  intros s.
  destruct (reader_failure_keeps_context
              (upload "broken.txt" (Failed (lit "invalid start byte")) (Failed []))
              s (lit "invalid start byte")) as (_ & _ & H & _).
  apply H; reflexivity.
Defined.

Lemma lstrip_split (s : str) :
  exists front, s = front ++ lstrip s /\ Spec.blank front.
Proof.
  induction s as [| c s (front & IH & Hblank)]; [exists []; by split; [| constructor] |].
  simpl. destruct (is_space c) eqn:E.
  - exists (c :: front). simpl. split; [by rewrite <- IH | by constructor].
  - exists []. split; [reflexivity | constructor].
Qed.

Lemma rstrip_split (s : str) :
  exists back, s = rstrip s ++ back /\ Spec.blank back.
Proof.
  unfold rstrip. destruct (lstrip_split (rev s)) as (front & H & Hblank).
  exists (rev front). split; [| by apply blank_rev].
  rewrite <- List.rev_app_distr, <- H. by rewrite List.rev_involutive.
Qed.

(** The readers that strip only trim: the text parsed from the file is the
    text returned with white space before and after it, and the text
    returned neither starts nor ends with white space.  Shown on the reader
    of text files. *)
Theorem read_txt_only_trims (f : uploaded_file) (raw : str) :
  as_txt f = Parsed raw ->
  exists text front back,
    read_txt f = (Some text, [])
    /\ raw = front ++ text ++ back
    /\ Spec.blank front /\ Spec.blank back
    /\ Spec.stripped text
    /\ strip text = text.
Proof.
  intros E. unfold read_txt. rewrite E.
  destruct (rstrip_split raw) as (back & Hback & Bback).
  destruct (lstrip_split (rstrip raw)) as (front & Hfront & Bfront).
  exists (strip raw), front, back.
  split; [reflexivity | split; [| split; [exact Bfront | split; [exact Bback |]]]].
  - unfold strip. rewrite app_assoc, <- Hfront. exact Hback.
  - split; [apply strip_stripped |].
    pose proof (strip_stripped raw) as [Hhead Hlast].
    unfold strip at 1.
    assert (rstrip (strip raw) = strip raw) as ->.
    { unfold rstrip. destruct (rev (strip raw)) as [| c r] eqn:R.
      - apply (f_equal (@rev N)) in R. rewrite List.rev_involutive in R.
        by rewrite R.
      - assert (strip raw = rev r ++ [c]) as Hr.
        { apply (f_equal (@rev N)) in R. by rewrite List.rev_involutive in R. }
        simpl. rewrite (Hlast c (rev r) Hr). by rewrite Hr. }
    destruct (strip raw) as [| c r] eqn:R; [reflexivity |].
    simpl. by rewrite (Hhead c r eq_refl).
Qed.

Lemma read_txt_only_trims_witness :
  exists text front back,
    read_txt (upload "memo.txt" (Parsed (lit "  to do " ++ nl)) (Failed []))
    = (Some text, [])
    /\ lit "  to do " ++ nl = front ++ text ++ back
    /\ Spec.blank front /\ Spec.blank back
    /\ Spec.stripped text
    /\ strip text = text.
Proof.
  apply (read_txt_only_trims
           (upload "memo.txt" (Parsed (lit "  to do " ++ nl)) (Failed []))
           (lit "  to do " ++ nl) eq_refl).
Defined.

Lemma join_blank (parts : list str) :
  Forall (fun part => part = []) parts -> Spec.blank (join nl parts).
Proof.
  unfold Spec.blank. induction parts as [| p parts IH]; [constructor |].
  intros H. inversion H as [| ? ? -> Hrest]; subst.
  destruct parts as [| q parts]; [constructor |].
  change (join nl ([] :: q :: parts)) with ([] ++ nl ++ join nl (q :: parts)).
  simpl. constructor; [reflexivity | by apply IH].
Qed.

(** A PDF none of whose pages yields text (a scan) is not an error: the
    reader returns the empty string without a message, and the upload
    changes nothing and shows nothing. *)
Theorem pdf_without_text_installs_nothing (f : uploaded_file) (s : session)
    (pages : list (option str)) :
  file_type f = lit "pdf" ->
  as_pdf f = Parsed pages ->
  Forall (fun page => page = None \/ page = Some []) pages ->
  extract_text (Some f) = (Some [], []) /\ on_upload (Some f) s = (s, []).
Proof.
  intros T E Hpages.
  assert (extract_text (Some f) = (Some [], [])) as Hx.
  { rewrite (dispatch f (lit "pdf") read_pdf eq_refl T). unfold read_pdf.
    rewrite E. f_equal. f_equal. apply strip_nil_iff. unfold pdf_text.
    apply join_blank. apply List.Forall_map.
    eapply List.Forall_impl; [| exact Hpages].
    by intros page [-> | ->]. }
  split; [exact Hx |]. unfold on_upload. by rewrite Hx.
Qed.

Lemma pdf_without_text_installs_nothing_witness :
  let f :=
    {| name := lit "scan.pdf";
       as_pdf := Parsed [None; Some []; None];
       as_docx := Failed []; as_txt := Failed []; as_csv := Failed [];
       as_excel := Failed [] |} in
  let s := with_notes (lit "draft") initial_session in
  on_upload (Some f) s = (s, []).
Proof.
  intros f s.
  apply (pdf_without_text_installs_nothing f s [None; Some []; None] eq_refl eq_refl).
  repeat (constructor; [by (left + right) |]). constructor.
Defined.

Lemma fold_left_grows {A : Type} (f : A -> str) (items : list A) (acc : str) :
  fold_left (fun text item => text ++ f item) items acc
  = acc ++ List.concat (List.map f items).
Proof.
  revert acc. induction items as [| item items IH]; intros acc; simpl.
  - by rewrite app_nil_r.
  - by rewrite IH, app_assoc.
Qed.

(** The text of a workbook is the sheets in their order, each under a line
    with its name; the reader returns the empty string exactly for a
    workbook with no sheet, so every sheet of a workbook that has one
    reaches the context. *)
Theorem excel_sheets_all_rendered (f : uploaded_file) (sheets : list (str * str)) :
  as_excel f = Parsed sheets ->
  excel_text sheets
  = List.concat
      (List.map (fun sheet => nl ++ lit "--- Sheet: " ++ fst sheet ++ lit " ---"
                                ++ nl ++ snd sheet ++ nl) sheets)
  /\ (fst (read_excel f) = Some [] <-> sheets = []).
Proof.
  intros E.
  assert (excel_text sheets
          = List.concat
              (List.map (fun sheet => nl ++ lit "--- Sheet: " ++ fst sheet
                                        ++ lit " ---" ++ nl ++ snd sheet ++ nl)
                 sheets)) as Hx.
  { unfold excel_text.
    rewrite (fold_left_grows
               (fun sheet => (nl ++ lit "--- Sheet: " ++ fst sheet ++ lit " ---" ++ nl)
                               ++ snd sheet ++ nl)).
    simpl. f_equal. apply List.map_ext. intros sheet.
    by rewrite <- !app_assoc. }
  split; [exact Hx |]. unfold read_excel. rewrite E. cbn [fst]. split.
  - intros [= H]. apply strip_nil_iff in H. rewrite Hx in H.
    destruct sheets as [| sheet rest]; [reflexivity |]. exfalso.
    simpl in H. unfold Spec.blank in H.
    inversion H as [| ? ? _ H1]. cbn in H1.
    inversion H1 as [| ? ? Hdash _]. discriminate.
  - by intros ->.
Qed.

Lemma excel_sheets_all_rendered_witness :
  let f :=
    {| name := lit "book.xlsx";
       as_pdf := Failed []; as_docx := Failed []; as_txt := Failed [];
       as_csv := Failed [];
       as_excel := Parsed [(lit "Sheet1", [])] |} in
  fst (read_excel f) <> Some [].
Proof.
  intros f H.
  destruct (excel_sheets_all_rendered f [(lit "Sheet1", [])] eq_refl) as [_ Hiff].
  apply Hiff in H. discriminate.
Defined.

(** The upload part of the page runs on every run of the script: running
    it again on the same file changes nothing more.  It touches only the
    current text and file name. *)
Theorem upload_idempotent (uploaded : option uploaded_file) (s : session) :
  let s' := fst (on_upload uploaded s) in
  on_upload uploaded s' = (s', snd (on_upload uploaded s))
  /\ conversation_history s' = conversation_history s
  /\ api_key s' = api_key s
  /\ generation_count s' = generation_count s
  /\ last_request_time s' = last_request_time s
  /\ quota_reset_time s' = quota_reset_time s.
Proof.
  intros s'. subst s'. unfold on_upload.
  destruct uploaded as [f |]; [| by repeat split].
  destruct (extract_text (Some f)) as [[[| c text] |] shown]; by repeat split.
Qed.

End ExtractorMore.

(** ** The run of the script *)

Section ScriptFacts.

Local Open Scope Q_scope.

Import Generator Store Extractor Script Sample.

Lemma check_same_documents (now : Q) (s : session) :
  Spec.same_documents s (snd (Gate.check_quota_limits now s)).
Proof.
  destruct (check_state now s) as [-> | ->]; by repeat split.
Qed.

Lemma generate_same_documents (c : client) (k : clock) (key content : str)
    (mcq short : Z) (difficulty topic : str) (s : session) :
  Spec.same_documents s
    (snd (fst (generate_questions c k key content mcq short difficulty topic s))).
Proof.
  pose proof (check_same_documents (at_check k) s) as Hcheck.
  destruct (fst (fst (Gate.check_quota_limits (at_check k) s))) eqn:Hpass.
  - destruct (fst (get_generative_model c key)) as [model |] eqn:Hmodel.
    + rewrite (generate_dispatched c k key content mcq short difficulty topic s
                 model Hpass Hmodel). cbv zeta.
      destruct (generate_content c model _) as [text | | error_str];
        try exact Hcheck.
      destruct (is_quota_error error_str); exact Hcheck.
    + by rewrite (generate_without_model c k key content mcq short difficulty
                    topic s Hpass Hmodel).
  - destruct (check_refused_message _ _ Hpass) as [msg Hmsg].
    by rewrite (generate_refused c k key content mcq short difficulty topic s
                  msg Hmsg).
Qed.

(** An attempt to generate changes nothing but the two timers of the
    gate, whatever the client does: the saved contexts, the current text
    and file name, the API key and the counter are as before; the time of
    the last request stays or becomes the time read before the call; the
    lockout stays, is cleared, or is set 120 seconds after the time read in
    the handler. *)
Theorem generate_frame (c : client) (k : clock) (key content : str)
    (mcq short : Z) (difficulty topic : str) (s : session) :
  let s' :=
    snd (fst (generate_questions c k key content mcq short difficulty topic s)) in
  Spec.same_documents s s'
  /\ (last_request_time s' = last_request_time s
      \/ last_request_time s' = at_dispatch k)
  /\ (quota_reset_time s' = quota_reset_time s
      \/ quota_reset_time s' = None
      \/ quota_reset_time s' = Some (at_error k + 120)).
Proof.
  intros s'. split; [apply generate_same_documents |]. subst s'.
  assert (last_request_time (snd (Gate.check_quota_limits (at_check k) s))
          = last_request_time s
          /\ (quota_reset_time (snd (Gate.check_quota_limits (at_check k) s))
               = quota_reset_time s
              \/ quota_reset_time (snd (Gate.check_quota_limits (at_check k) s))
                 = None)) as [Hlast Hreset].
  { destruct (check_state (at_check k) s) as [-> | ->]; split; auto. }
  destruct (fst (fst (Gate.check_quota_limits (at_check k) s))) eqn:Hpass.
  - destruct (fst (get_generative_model c key)) as [model |] eqn:Hmodel.
    + rewrite (generate_dispatched c k key content mcq short difficulty topic s
                 model Hpass Hmodel). cbv zeta.
      destruct (generate_content c model _) as [text | | error_str];
        [| | destruct (is_quota_error error_str)];
        cbn [fst snd last_request_time quota_reset_time set_last_request_time
             set_quota_reset_time];
        (split; [by right | tauto]).
    + rewrite (generate_without_model c k key content mcq short difficulty
                 topic s Hpass Hmodel). cbn [fst snd]. tauto.
  - destruct (check_refused_message _ _ Hpass) as [msg Hmsg].
    rewrite (generate_refused c k key content mcq short difficulty topic s
               msg Hmsg). cbn [fst snd]. tauto.
Qed.

Lemma sidebar_without_rerun (w : widgets) (p : press) (o : world) (s : session) :
  snd (sidebar w p o s) = false ->
  script_run w p o s
  = (fst (main_content w p o (fst (fst (sidebar w p o s)))),
     snd (fst (sidebar w p o s))
     ++ snd (main_content w p o (fst (fst (sidebar w p o s))))).
Proof.
  unfold script_run.
  destruct (sidebar w p o s) as [[s1 shown1] rerun]. cbn [fst snd].
  intros ->. by destruct (main_content w p o s1).
Qed.

Lemma sidebar_quiet (w : widgets) (p : press) (o : world) (s : session) :
  p = NoPress \/ p = PressGenerate ->
  sidebar w p o s
  = (if truthy_str (api_key_input w)
     then set_api_key (Some (api_key_input w)) s else s, [], false).
Proof. by intros [-> | ->]. Qed.

(** With no API key, neither typed in nor kept in the session, the page
    stops at the request for a key: an uploaded file is not read and the
    "Generate" button does not exist, so such a run leaves the session as
    it was, whatever is in the uploader and whatever the client would
    do. *)
Theorem no_key_no_processing (w : widgets) (p : press) (o : world) (s : session) :
  api_key_input w = [] ->
  truthy_opt_str (api_key s) = false ->
  p = NoPress \/ p = PressGenerate ->
  fst (script_run w p o s) = s.
Proof.
  intros Hinput Hkey Hp.
  rewrite sidebar_without_rerun; rewrite (sidebar_quiet w p o s Hp), Hinput;
    cbn [truthy_str fst snd]; [| reflexivity].
  unfold main_content. by rewrite Hkey.
Qed.

Lemma no_key_no_processing_witness :
  fst (script_run
         (sample_widgets (Some (upload "memo.txt" (Parsed (lit "memo")) (Failed []))))
         PressGenerate (sample_world echo_client) initial_session)
  = initial_session.
Proof.
  apply (no_key_no_processing
           (sample_widgets (Some (upload "memo.txt" (Parsed (lit "memo")) (Failed []))))
           PressGenerate (sample_world echo_client) initial_session eq_refl eq_refl).
  by right.
Defined.

Lemma contexts_loop_frame (clicked : str) (items : list (str * saved_context))
    (s : session) :
  api_key (fst (contexts_loop clicked items s)) = api_key s /\ generation_count (fst (contexts_loop clicked items s)) = generation_count s
  /\ Spec.same_timers s (fst (contexts_loop clicked items s)).
Proof.
  induction items as [| [key data] rest IH]; [by repeat split |].
  cbn [contexts_loop]. repeat case_decide; [by repeat split .. | exact IH].
Qed.

Lemma on_save_frame (d1 d2 : datetime) (s : session) :
  api_key (fst (on_save d1 d2 s)) = api_key s /\ generation_count (fst (on_save d1 d2 s)) = generation_count s
  /\ Spec.same_timers s (fst (on_save d1 d2 s)).
Proof.
  unfold on_save. by destruct (truthy_str (strip (current_context s))).
Qed.

Lemma on_upload_frame (uploaded : option uploaded_file) (s : session) :
  api_key (fst (on_upload uploaded s)) = api_key s /\ generation_count (fst (on_upload uploaded s)) = generation_count s
  /\ Spec.same_timers s (fst (on_upload uploaded s)).
Proof.
  unfold on_upload. destruct uploaded as [f |]; [| by repeat split].
  destruct (extract_text (Some f)) as [[[| ch text] |] shown]; by repeat split.
Qed.

Lemma on_generate_api_key (c : client) (k : clock) (mcq short : Z)
    (difficulty topic : str) (s : session) :
  api_key (fst (on_generate c k mcq short difficulty topic s)) = api_key s.
Proof.
  unfold on_generate. destruct (api_key s) as [key |] eqn:K; [| exact K].
  destruct (truthy_str key && truthy_str (strip (current_context s)));
    [| exact K].
  pose proof (generate_same_documents c k key (current_context s) mcq short
                difficulty (if truthy_str topic then topic else lit "All topics") s)
    as (_ & _ & _ & Hkey & _).
  destruct (generate_questions _ _ _ _ _ _ _ _ _) as [[output s1] shown].
  cbn [fst snd] in *.
  destruct (truthy_opt_str output); cbn [fst api_key set_generation_count];
    congruence.
Qed.

Lemma main_content_frame (w : widgets) (p : press) (o : world) (s : session) :
  api_key (fst (main_content w p o s)) = api_key s
  /\ (p <> PressGenerate ->
      generation_count (fst (main_content w p o s)) = generation_count s /\ Spec.same_timers s (fst (main_content w p o s))).
Proof.
  unfold main_content.
  destruct (negb (truthy_opt_str (api_key s))); [by repeat split |].
  pose proof (on_upload_frame (uploader w) s) as (Hkey & Hcount & Ht1 & Ht2).
  destruct (on_upload (uploader w) s) as [s1 shown1]. cbn [fst] in *.
  destruct (truthy_str (strip (current_context s1)));
    [| cbn [fst]; by repeat split].
  destruct p; cbn [fst]; try (by repeat split).
  pose proof (on_generate_api_key (the_client o) (the_clock o) (mcq_slider w)
                (short_slider w) (difficulty_box w) (topic_input w) s1) as Hgen.
  destruct (on_generate _ _ _ _ _ _ s1) as [s2 shown2]. cbn [fst] in *.
  split; [congruence | done].
Qed.

Lemma sidebar_frame (w : widgets) (p : press) (o : world) (s : session) :
  api_key (fst (fst (sidebar w p o s)))
  = (if truthy_str (api_key_input w) then Some (api_key_input w) else api_key s)
  /\ generation_count (fst (fst (sidebar w p o s))) = generation_count s
  /\ Spec.same_timers s (fst (fst (sidebar w p o s))).
Proof.
  unfold sidebar.
  set (s1 := if truthy_str (api_key_input w)
             then set_api_key (Some (api_key_input w)) s else s).
  assert (api_key s1
          = (if truthy_str (api_key_input w) then Some (api_key_input w)
             else api_key s)
          /\ generation_count s1 = generation_count s
          /\ Spec.same_timers s s1) as (Hkey & Hcount & Ht1 & Ht2).
  { subst s1. by destruct (truthy_str (api_key_input w)). }
  destruct p.
  - by repeat split.
  - pose proof (on_save_frame (save_key_time o) (save_stamp_time o) s1)
      as (H1 & H2 & H3 & H4).
    destruct (on_save _ _ s1) as [s2 shown]. cbn [fst] in *.
    repeat split; congruence.
  - cbn [on_clear_all fst]. by repeat split.
  - pose proof (contexts_loop_frame clicked
                  (map_to_list (conversation_history s1)) s1)
      as (H1 & H2 & H3 & H4).
    unfold saved_contexts_panel.
    destruct (contexts_loop _ _ s1) as [s2 shown]. cbn [fst] in *.
    repeat split; congruence.
  - by repeat split.
Qed.

(** The API key of the session is the one typed in on this run, or the
    one it had when the field is empty: no press and no failure clears
    it. *)
Theorem api_key_kept (w : widgets) (p : press) (o : world) (s : session) :
  api_key (fst (script_run w p o s))
  = (if truthy_str (api_key_input w) then Some (api_key_input w)
     else api_key s).
Proof.
  unfold script_run.
  pose proof (sidebar_frame w p o s) as (Hkey & _).
  destruct (sidebar w p o s) as [[s1 shown1] rerun]. cbn [fst] in Hkey.
  destruct rerun.
  - pose proof (sidebar_frame w NoPress o s1) as (Hkey2 & _).
    destruct (sidebar w NoPress o s1) as [[s2 shown2] rerun2].
    cbn [fst] in Hkey2.
    pose proof (main_content_frame w NoPress o s2) as (Hkey3 & _).
    destruct (main_content w NoPress o s2) as [s3 shown3]. cbn [fst] in *.
    rewrite Hkey3, Hkey2, Hkey. by destruct (truthy_str (api_key_input w)).
  - pose proof (main_content_frame w p o s1) as (Hkey3 & _).
    destruct (main_content w p o s1) as [s3 shown3]. cbn [fst] in *.
    by rewrite Hkey3, Hkey.
Qed.

(** Only a press of "Generate" can move the counter of generations or the
    timers of the gate: saving, clearing, loading, deleting and uploading
    leave all three alone. *)
Theorem only_generate_moves_timers (w : widgets) (p : press) (o : world)
    (s : session) :
  p <> PressGenerate ->
  let s' := fst (script_run w p o s) in
  generation_count s' = generation_count s /\ Spec.same_timers s s'.
Proof.
  intros Hp s'. subst s'. unfold script_run.
  pose proof (sidebar_frame w p o s) as (_ & Hc1 & Ha1 & Hb1).
  destruct (sidebar w p o s) as [[s1 shown1] rerun]. cbn [fst] in *.
  destruct rerun.
  - pose proof (sidebar_frame w NoPress o s1) as (_ & Hc2 & Ha2 & Hb2).
    destruct (sidebar w NoPress o s1) as [[s2 shown2] rerun2]. cbn [fst] in *.
    pose proof (main_content_frame w NoPress o s2) as (_ & Hmain).
    destruct (Hmain ltac:(discriminate)) as (Hc3 & Ha3 & Hb3).
    destruct (main_content w NoPress o s2) as [s3 shown3]. cbn [fst] in *.
    repeat split; congruence.
  - pose proof (main_content_frame w p o s1) as (_ & Hmain).
    destruct (Hmain Hp) as (Hc3 & Ha3 & Hb3).
    destruct (main_content w p o s1) as [s3 shown3]. cbn [fst] in *.
    repeat split; congruence.
Qed.

Lemma only_generate_moves_timers_witness :
  let s :=
    Gate.record_lockout 900 (set_last_request_time 899 (keyed_session (lit "draft"))) in
  let s' := fst (script_run (sample_widgets None) PressSave
                   (sample_world echo_client) s) in
  generation_count s' = generation_count s /\ Spec.same_timers s s'.
Proof.
  intros s.
  apply (only_generate_moves_timers (sample_widgets None) PressSave
           (sample_world echo_client) s).
  discriminate.
Defined.




End ScriptFacts.

(** ** Labels and documents *)

Section LabelFacts.

Import Store Extractor Sample.

Lemma save_refused_iff_blank_witness :
  let s := with_notes (lit "  " ++ nl) initial_session in
  on_save (noon 1) (noon 1) s
  = (s, [UiWarning ([9888%N; 65039%N] ++ lit " No content to save")]).
Proof.
  intros s. apply (save_refused_iff_blank (noon 1) (noon 1) s).
  vm_compute. repeat constructor.
Defined.

(** The size shown for a saved context is the length over 1024 rounded to
    the nearest tenth: the tenths printed are within one half of ten times
    the length over 1024. *)
Theorem size_label_rounds (n : Z) :
  (0 <= n)%Z ->
  exists tenths,
    kb_one_decimal n
    = str_of_int (tenths / 10) ++ lit "." ++ str_of_int (tenths mod 10)
    /\ (0 <= tenths)%Z
    /\ (Z.abs (1024 * tenths - 10 * n) <= 512)%Z.
Proof.
  intros Hn. unfold kb_one_decimal.
  pose proof (Z.div_mod (n * 10) 1024 ltac:(discriminate)) as Hdiv.
  pose proof (Z.mod_pos_bound (n * 10) 1024 ltac:(reflexivity)) as Hmod.
  assert (0 <= n * 10 / 1024)%Z as Hq by (apply Z.div_pos; lia).
  set (q := (n * 10 / 1024)%Z) in *. set (r := (n * 10 mod 1024)%Z) in *.
  destruct (r <? 512)%Z eqn:Hlow.
  - exists q. apply Z.ltb_lt in Hlow. split; [reflexivity | lia].
  - apply Z.ltb_ge in Hlow. destruct (512 <? r)%Z eqn:Hhigh.
    + exists (q + 1)%Z. apply Z.ltb_lt in Hhigh. split; [reflexivity | lia].
    + apply Z.ltb_ge in Hhigh. destruct (Z.even q).
      * exists q. split; [reflexivity | lia].
      * exists (q + 1)%Z. split; [reflexivity | lia].
Qed.

Lemma size_label_rounds_witness :
  exists tenths,
    kb_one_decimal 10000
    = str_of_int (tenths / 10) ++ lit "." ++ str_of_int (tenths mod 10)
    /\ (0 <= tenths)%Z
    /\ (Z.abs (1024 * tenths - 10 * 10000) <= 512)%Z.
Proof. apply (size_label_rounds 10000). discriminate. Defined.

Lemma rows_text_grows (text : str) (rows : list (list str)) :
  rows_text text rows
  = text ++ List.concat (List.map (fun cells => nl ++ join (lit " | ") cells) rows).
Proof.
  unfold rows_text.
  apply (fold_left_grows (fun cells => nl ++ join (lit " | ") cells)).
Qed.

(** The text of a DOCX document is its paragraphs, one per line, followed
    by the rows of all its tables in the order of the document, one row
    per line: a table is not kept at its place between the paragraphs. *)
Theorem docx_rows_after_paragraphs (doc : docx_document) :
  docx_text doc
  = join nl (paragraphs doc)
    ++ List.concat
         (List.map (fun cells => nl ++ join (lit " | ") cells)
            (List.concat (tables doc))).
Proof.
  unfold docx_text. generalize (join nl (paragraphs doc)) as text.
  induction (tables doc) as [| rows rest IH]; intros text; simpl.
  - by rewrite app_nil_r.
  - rewrite IH, rows_text_grows, List.map_app, List.concat_app.
    by rewrite app_assoc.
Qed.

End LabelFacts.

(** ** Presses and the runs they start *)

Section PressFacts.

Import Generator Store Extractor Script Sample.

(** A press of "Clear All" starts a whole run of the script.  The saved
    contexts are empty after it.  The current text is empty after it, and
    the file name kept, only when no API key is set or nothing readable is
    in the uploader: with a key and a readable file still in the uploader
    the same run puts that file's text and name back. *)
Theorem clear_all_run (w : widgets) (o : world) (s : session) :
  let s' := fst (script_run w PressClearAll o s) in
  let keyed := truthy_str (api_key_input w) || truthy_opt_str (api_key s) in
  conversation_history s' = ∅
  /\ (keyed = false \/ truthy_opt_str (fst (extract_text (uploader w))) = false ->
      current_context s' = [] /\ current_file_name s' = current_file_name s)
  /\ (forall f text,
        keyed = true -> uploader w = Some f ->
        fst (extract_text (Some f)) = Some text -> text <> [] ->
        current_context s' = text /\ current_file_name s' = Some (name f)).
Proof.
  intros s' keyed. subst s'.
  rewrite sidebar_without_rerun by reflexivity.
  unfold sidebar. cbn [on_clear_all fst snd].
  set (s1 := if truthy_str (api_key_input w)
             then set_api_key (Some (api_key_input w)) s else s).
  assert (truthy_opt_str (api_key s1) = keyed) as Hkeyed.
  { subst s1 keyed. destruct (api_key_input w); reflexivity. }
  assert (current_file_name s1 = current_file_name s) as Hname
    by (subst s1; by destruct (truthy_str (api_key_input w))).
  unfold main_content.
  cbn [api_key set_current_context set_current set_history]. rewrite Hkeyed.
  destruct keyed; cbn [negb].
  - unfold on_upload.
    destruct (uploader w) as [f |].
    + destruct (extract_text (Some f)) as [[[| ch text] |] shown] eqn:E;
        cbn [truthy_str fst truthy_opt_str];
        repeat match goal with
               | |- context [if ?b then _ else _] => destruct b
               end;
        cbn [fst conversation_history current_context current_file_name
             set_current];
        (split; [reflexivity | split]);
        try (intros [? | ?]; done);
        try (intros f' text' _ [= <-]; rewrite E; cbn [fst];
             intros [= <-] Hne; done).
    + cbn [fst truthy_opt_str extract_text].
      repeat match goal with
             | |- context [if ?b then _ else _] => destruct b
             end;
        cbn [fst conversation_history current_context current_file_name
             set_current];
        (split; [reflexivity | split; [done | intros f text _ [=]]]).
  - cbn [fst conversation_history current_context current_file_name set_current].
    split; [reflexivity | split; [done | intros f text [=]]].
Qed.

Lemma clear_all_run_witness :
  let saved := fst (on_save (noon 1) (noon 1) (keyed_session (lit "draft"))) in
  current_context
    (fst (script_run (keyed_widgets (Some memo_file)) PressClearAll
            (sample_world echo_client) saved)) = lit "memo"
  /\ current_context
       (fst (script_run (keyed_widgets None) PressClearAll
               (sample_world echo_client) saved)) = [].
Proof.
  intros saved. split.
  - destruct (clear_all_run (keyed_widgets (Some memo_file))
                (sample_world echo_client) saved) as (_ & _ & H).
    apply (H memo_file (lit "memo")); [reflexivity .. | discriminate].
  - destruct (clear_all_run (keyed_widgets None) (sample_world echo_client) saved)
      as (_ & H & _).
    apply H. by right.
Defined.


End PressFacts.
